(** * memorize.py: a persistent memoizing decorator

    Shallow embedding of [2021-IJHPCA/py-modules/memorize.py] and the
    properties its specification states about it.

    Conventions of the embedding (Python 3 semantics, CPython 3.3 to 3.9,
    where [collections.Hashable] still exists and [six.u] is the identity):
    - a Python [str] is the list of its code points;
    - modification times are floats in the source; only their order is
      used, so they are integers here;
    - the bytes of a file are represented by what [pickle.loads] does on
      them (see [content]);
    - [unicodedata.normalize('NFKD', _)] and [os.path.abspath] are library
      functions that depend on tables and on the process; they are
      parameters of the development;
    - the decorated function does not call back into its own wrapper, and
      its source file is not the cache file, so that writing the cache
      leaves the modification time of the source alone. *)

From Stdlib Require Import NArith ZArith String Ascii List Bool Lia.
From stdpp Require Import gmap.
Import ListNotations.

Open Scope N_scope.

(** ** Python strings *)

Definition pystr := list N.

(** A string literal of the source, as code points. *)
Definition u (s : string) : pystr := List.map N_of_ascii (list_ascii_of_string s).

Fixpoint startswith (p s : pystr) : bool :=
  match p, s with
  | [], _ => true
  | _ :: _, [] => false
  | a :: p', b :: s' => (a =? b) && startswith p' s'
  end.

Definition endswith (p s : pystr) : bool := startswith (rev p) (rev s).

(** [s.replace(old, new)] for a non-empty [old]: occurrences are found left
    to right and do not overlap.  [skip] counts the characters of the
    current occurrence that are still to be passed over. *)
Fixpoint replace_from (old new : pystr) (skip : nat) (s : pystr) : pystr :=
  match s with
  | [] => []
  | c :: r =>
      match skip with
      | S k => replace_from old new k r
      | O =>
          if startswith old s
          then new ++ replace_from old new (Nat.pred (length old)) r
          else c :: replace_from old new O r
      end
  end.

Definition str_replace (old new s : pystr) : pystr := replace_from old new O s.

(** [Py_UNICODE_ISSPACE] below 128: tab to carriage return, the four
    separators 0x1c to 0x1f, and the space.  Both [str.strip()] and [\s] of
    a [str] pattern use it. *)
Definition is_space (c : N) : bool :=
  ((9 <=? c) && (c <=? 13)) || ((28 <=? c) && (c <=? 31)) || (c =? 32).

Definition is_digit (c : N) : bool := (48 <=? c) && (c <=? 57).
Definition is_upper (c : N) : bool := (65 <=? c) && (c <=? 90).
Definition is_lower (c : N) : bool := (97 <=? c) && (c <=? 122).

(** [\w] on the code points below 128: letters, digits and underscore. *)
Definition is_word (c : N) : bool :=
  is_digit c || is_upper c || is_lower c || (c =? 95).

Definition hyphen : N := 45.
Definition is_hyphen (c : N) : bool := c =? hyphen.

Fixpoint keep (p : N -> bool) (s : pystr) : pystr :=
  match s with
  | [] => []
  | c :: r => if p c then c :: keep p r else keep p r
  end.

(** [s.encode('ascii', 'ignore')]: code points that ASCII cannot encode are
    dropped; the others are their own byte. *)
Definition encode_ascii_ignore (s : pystr) : list N := keep (fun c => c <? 128) s.

(** [b.decode('utf-8', 'ignore')] on the bytes [encode_ascii_ignore]
    produces: every byte is below 128 and decodes to itself. *)
Definition decode_utf8_ignore (b : list N) : pystr := b.

(** [re.sub(r'[^\w\s-]', '', s)]: the pattern matches one character at a
    time, and each match is replaced by the empty string. *)
Definition slug_char (c : N) : bool := is_word c || is_space c || is_hyphen c.
Definition re_sub_strip_other (s : pystr) : pystr := keep slug_char s.

Fixpoint lstrip (s : pystr) : pystr :=
  match s with
  | [] => []
  | c :: r => if is_space c then lstrip r else s
  end.

Definition rstrip (s : pystr) : pystr := rev (lstrip (rev s)).

(** [s.strip()] *)
Definition strip (s : pystr) : pystr := rstrip (lstrip s).

Definition lower_char (c : N) : N := if is_upper c then c + 32 else c.

(** [s.lower()] on ASCII text *)
Definition lower (s : pystr) : pystr := List.map lower_char s.

(** [re.sub(r'[-\s]+', '-', s)]: a left-to-right scan; on entering a run of
    hyphens and white space one hyphen is written, the rest of the run is
    passed over.  [in_run] tells that the previous character was in a run. *)
Definition sep_char (c : N) : bool := is_hyphen c || is_space c.

Fixpoint sub_runs (in_run : bool) (s : pystr) : pystr :=
  match s with
  | [] => []
  | c :: r =>
      if sep_char c
      then (if in_run then sub_runs true r else hyphen :: sub_runs true r)
      else c :: sub_runs false r
  end.

Definition re_sub_runs (s : pystr) : pystr := sub_runs false s.

(** The characters a slug is made of: lower case letters, digits,
    underscore and hyphen. *)
Definition slug_out_char (c : N) : bool :=
  is_lower c || is_digit c || (c =? 95) || is_hyphen c.

Fixpoint no_double_hyphen (s : pystr) : bool :=
  match s with
  | [] => true
  | c :: r =>
      match r with
      | [] => true
      | c' :: _ => negb (is_hyphen c && is_hyphen c') && no_double_hyphen r
      end
  end.

(** The separator [posixpath.join] puts after the directory [a]. *)
Definition join_sep (a : pystr) : pystr :=
  if (match a with [] => true | _ => false end) || endswith (u "/") a
  then [] else u "/".

(** [posixpath.join(a, b)] *)
Definition os_path_join (a b : pystr) : pystr :=
  if startswith (u "/") b then b
  else if (match a with [] => true | _ => false end) || endswith (u "/") a
       then a ++ b
       else a ++ u "/" ++ b.

(** [posixpath.basename(p)]: what follows the last slash. *)
Fixpoint os_path_basename (p : pystr) : pystr :=
  match p with
  | [] => []
  | c :: r => if existsb (N.eqb 47) r then os_path_basename r
              else if c =? 47 then r else p
  end.

(** ** Python values

    The values the wrapper handles: arguments, results, and whatever an
    existing cache file unpickles to. *)

#[warnings="-register-all"]
Inductive pyval : Type :=
  | VNone
  | VInt (z : Z)
  | VStr (s : pystr)
  | VTuple (l : list pyval)
  | VList (l : list pyval)
  | VDict (d : list (pyval * pyval)).

Definition pystr_eqb (s t : pystr) : bool := bool_decide (s = t).

(** Python's [a == b] on these values.  Sequences compare element by
    element; two dicts are equal when they have the same size and every
    entry of the first is found, with an equal value, in the second. *)
Fixpoint py_eqb (a b : pyval) {struct a} : bool :=
  match a, b with
  | VNone, VNone => true
  | VInt x, VInt y => Z.eqb x y
  | VStr s, VStr t => pystr_eqb s t
  | VTuple l, VTuple m | VList l, VList m =>
      (fix seq_eqb (l m : list pyval) {struct l} : bool :=
         match l, m with
         | [], [] => true
         | x :: l', y :: m' => py_eqb x y && seq_eqb l' m'
         | _, _ => false
         end) l m
  | VDict d, VDict e =>
      Nat.eqb (length d) (length e) &&
      (fix entries (d : list (pyval * pyval)) {struct d} : bool :=
         match d with
         | [] => true
         | (k, v) :: d' =>
             (fix find (e : list (pyval * pyval)) {struct e} : bool :=
                match e with
                | [] => false
                | (k', v') :: e' => if py_eqb k k' then py_eqb v v' else find e'
                end) e && entries d'
         end) d
  | _, _ => false
  end.

(** [hash(v)] succeeds: lists and dicts are unhashable, and a tuple hashes
    its elements. *)
Fixpoint hashable (v : pyval) : bool :=
  match v with
  | VNone | VInt _ | VStr _ => true
  | VTuple l => forallb hashable l
  | VList _ | VDict _ => false
  end.

(** [isinstance(v, collections.Hashable)]: true when the TYPE of [v]
    defines [__hash__].  The tuple type does, whatever the tuple holds. *)
Definition isinstance_Hashable (v : pyval) : bool :=
  match v with
  | VList _ | VDict _ => false
  | VNone | VInt _ | VStr _ | VTuple _ => true
  end.

Definition is_dict (v : pyval) : bool :=
  match v with VDict _ => true | _ => false end.

(** A dict is its list of entries in insertion order. *)
Fixpoint dict_get (k : pyval) (d : list (pyval * pyval)) : option pyval :=
  match d with
  | [] => None
  | (k', v) :: r => if py_eqb k' k then Some v else dict_get k r
  end.

Fixpoint dict_set (k v : pyval) (d : list (pyval * pyval)) : list (pyval * pyval) :=
  match d with
  | [] => [(k, v)]
  | (k', v') :: r => if py_eqb k' k then (k', v) :: r else (k', v') :: dict_set k v r
  end.

(** The induction principle of the nested type. *)
Section pyval_induction.

Variable P : pyval -> Prop.
Hypothesis HNone : P VNone.
Hypothesis HInt : forall z, P (VInt z).
Hypothesis HStr : forall s, P (VStr s).
Hypothesis HTuple : forall l, Forall P l -> P (VTuple l).
Hypothesis HList : forall l, Forall P l -> P (VList l).
Hypothesis HDict : forall d, Forall (fun kv => P (fst kv) /\ P (snd kv)) d -> P (VDict d).

Fixpoint pyval_nested_ind (v : pyval) : P v :=
  match v with
  | VNone => HNone
  | VInt z => HInt z
  | VStr s => HStr s
  | VTuple l =>
      HTuple l ((fix go (l : list pyval) : Forall P l :=
                   match l with
                   | [] => List.Forall_nil P
                   | x :: r => List.Forall_cons P x r (pyval_nested_ind x) (go r)
                   end) l)
  | VList l =>
      HList l ((fix go (l : list pyval) : Forall P l :=
                  match l with
                  | [] => List.Forall_nil P
                  | x :: r => List.Forall_cons P x r (pyval_nested_ind x) (go r)
                  end) l)
  | VDict d =>
      HDict d ((fix go (d : list (pyval * pyval))
                  : Forall (fun kv => P (fst kv) /\ P (snd kv)) d :=
                  match d with
                  | [] => List.Forall_nil _
                  | kv :: r =>
                      List.Forall_cons _ kv r
                        (conj (pyval_nested_ind (fst kv)) (pyval_nested_ind (snd kv)))
                        (go r)
                  end) d)
  end.

End pyval_induction.

(** ** Exceptions and results *)

Inductive exn : Type :=
  | EOFError
  | UnpicklingError
  | TypeError
  | KeyError
  | IndexError
  | AttributeError
  | AssertionError
  | OSError
  | OtherError (tag : nat).

(** [except EOFError] *)
Definition is_EOFError (e : exn) : bool :=
  match e with EOFError => true | _ => false end.

Inductive result (A : Type) : Type :=
  | Return (a : A)
  | Raise (e : exn).
Arguments Return {A} a.
Arguments Raise {A} e.

(** [seq[i]] with Python's negative indices. *)
Definition seq_index {A : Type} (l : list A) (i : Z) : result A :=
  let n := Z.of_nat (length l) in
  let j := (if i <? 0 then i + n else i)%Z in
  if ((0 <=? j) && (j <? n))%Z
  then match nth_error l (Z.to_nat j) with
       | Some x => Return x
       | None => Raise IndexError
       end
  else Raise IndexError.

Fixpoint seq_update {A : Type} (l : list A) (i : nat) (x : A) : list A :=
  match l, i with
  | [], _ => []
  | _ :: r, O => x :: r
  | y :: r, S i' => y :: seq_update r i' x
  end.

Fixpoint is_substring (t s : pystr) : bool :=
  startswith t s || match s with [] => false | _ :: r => is_substring t r end.

(** [c[k]] *)
Definition py_getitem (c k : pyval) : result pyval :=
  match c with
  | VDict d =>
      if hashable k
      then match dict_get k d with Some v => Return v | None => Raise KeyError end
      else Raise TypeError
  | VList l | VTuple l =>
      match k with VInt i => seq_index l i | _ => Raise TypeError end
  | VStr s =>
      match k with
      | VInt i => match seq_index s i with
                  | Return ch => Return (VStr [ch])
                  | Raise e => Raise e
                  end
      | _ => Raise TypeError
      end
  | VNone | VInt _ => Raise TypeError
  end.

(** [k in c] *)
Definition py_contains (c k : pyval) : result bool :=
  match c with
  | VDict d =>
      if hashable k
      then Return (match dict_get k d with Some _ => true | None => false end)
      else Raise TypeError
  | VList l | VTuple l => Return (existsb (fun x => py_eqb x k) l)
  | VStr s => match k with VStr t => Return (is_substring t s) | _ => Raise TypeError end
  | VNone | VInt _ => Raise TypeError
  end.

(** [c[k] = v]; the result is the container after the assignment. *)
Definition py_setitem (c k v : pyval) : result pyval :=
  match c with
  | VDict d => if hashable k then Return (VDict (dict_set k v d)) else Raise TypeError
  | VList l =>
      match k with
      | VInt i =>
          let n := Z.of_nat (length l) in
          let j := (if i <? 0 then i + n else i)%Z in
          if ((0 <=? j) && (j <? n))%Z
          then Return (VList (seq_update l (Z.to_nat j) v))
          else Raise IndexError
      | _ => Raise TypeError
      end
  | VTuple _ | VStr _ | VNone | VInt _ => Raise TypeError
  end.

(** [t > v] for a float [t]: defined against a number only. *)
Definition py_time_gt (t : Z) (v : pyval) : result bool :=
  match v with
  | VInt z => Return (z <? t)%Z
  | _ => Raise TypeError
  end.

(** ** Files

    The wrapper reads a cache file only through [pickle.loads], so the
    bytes of a file are represented by what [pickle.loads] does on them:
    [Pickled v] are the bytes [pickle.dumps(v, protocol=2)], which load
    back to [v]; [Broken e] are bytes on which loading raises [e].  The
    empty file is [Broken EOFError]. *)
Inductive content : Type :=
  | Pickled (v : pyval)
  | Broken (e : exn).

Definition empty_file : content := Broken EOFError.

Definition pickle_loads (c : content) : result pyval :=
  match c with
  | Pickled v => Return v
  | Broken e => Raise e
  end.

Definition pickle_dumps (v : pyval) : content := Pickled v.

Inductive node : Type :=
  | Dir
  | File (c : content).

(** What lies outside the program.  [getmtime] answers
    [os.path.getmtime]; [None] stands for the [OSError] of a missing file.
    The three faults say whether opening for reading, opening for writing
    and writing fail, and with which exception; a failed write leaves
    [snd] of the fault in the file.  [calls] counts the invocations of the
    underlying function so far. *)
Record world : Type := World {
  files : gmap (list N) node;
  getmtime : pystr -> option Z;
  read_fault : option exn;
  open_fault : option exn;
  write_fault : option (exn * content);
  calls : nat
}.

Definition set_files (f : gmap (list N) node) (w : world) : world :=
  World f (getmtime w) (read_fault w) (open_fault w) (write_fault w) (calls w).

Definition tick (w : world) : world :=
  World (files w) (getmtime w) (read_fault w) (open_fault w) (write_fault w) (S (calls w)).

(** The decorated function: its [__name__], the file [inspect.getfile]
    reports, and its behaviour.  The behaviour may differ from one
    invocation to the next (the decorator does not require purity): it
    depends on the arguments and on the number of earlier invocations.
    It does not call back into the wrapper. *)
Record pyfunc : Type := PyFunc {
  fn_name : pystr;
  fn_file : pystr;
  fn_body : list pyval -> nat -> result pyval
}.

(** The attributes of a [Memorize] instance once it decorates a function.
    [timestamp] is [None] while the attribute is not set. *)
Record memo : Type := Memo {
  cache : pyval;
  timestamp : option pyval;
  folder : pystr;
  func : pyfunc;
  parent_filepath : pystr;
  parent_filename : pystr;
  name : pystr
}.

Definition set_cache (c : pyval) (s : memo) : memo :=
  Memo c (timestamp s) (folder s) (func s) (parent_filepath s) (parent_filename s) (name s).

Definition set_timestamp (t : pyval) (s : memo) : memo :=
  Memo (cache s) (Some t) (folder s) (func s) (parent_filepath s) (parent_filename s) (name s).

(** The attributes fixed when the function is decorated. *)
Definition same_binding (s s' : memo) : Prop :=
  folder s' = folder s /\ func s' = func s /\
  parent_filepath s' = parent_filepath s /\
  parent_filename s' = parent_filename s /\ name s' = name s.

(** ** Computations: instance state, world, and exceptions *)

Definition M (A : Type) : Type := memo -> world -> result A * memo * world.

Definition ret {A : Type} (a : A) : M A := fun s w => (Return a, s, w).
Definition raise {A : Type} (e : exn) : M A := fun s w => (Raise e, s, w).
Definition bind {A B : Type} (m : M A) (f : A -> M B) : M B :=
  fun s w =>
    match m s w with
    | (Return a, s', w') => f a s' w'
    | (Raise e, s', w') => (Raise e, s', w')
    end.
Definition lift {A : Type} (r : result A) : M A := fun s w => (r, s, w).
Definition gets {A : Type} (f : memo -> A) : M A := fun s w => (Return (f s), s, w).
Definition modify (f : memo -> memo) : M unit := fun s w => (Return tt, f s, w).

(** [try: body / except EOFError: handler / else: orelse] *)
Definition try_except_EOFError {A : Type} (body : M unit) (handler orelse : M A) : M A :=
  fun s w =>
    match body s w with
    | (Return _, s', w') => orelse s' w'
    | (Raise e, s', w') => if is_EOFError e then handler s' w' else (Raise e, s', w')
    end.

Notation "'let*' x ':=' m 'in' k" := (bind m (fun x => k))
  (at level 10, x name, m at level 100, k at level 200).
Notation "m '>>' k" := (bind m (fun _ => k))
  (at level 100, k at level 200, right associativity).

(** *** File system primitives *)

Definition os_path_isfile (p : pystr) : M bool :=
  fun s w => (Return (match files w !! p with Some (File _) => true | _ => false end), s, w).

Definition os_path_isdir (p : pystr) (w : world) : bool :=
  match files w !! p with Some Dir => true | _ => false end.

Definition os_path_getmtime (p : pystr) : M Z :=
  fun s w => (match getmtime w p with Some t => Return t | None => Raise OSError end, s, w).

(** [open(p, 'rb')] followed by [f.read()] *)
Definition open_read (p : pystr) : M content :=
  fun s w =>
    match files w !! p with
    | Some (File c) =>
        match read_fault w with
        | Some e => (Raise e, s, w)
        | None => (Return c, s, w)
        end
    | _ => (Raise OSError, s, w)
    end.

(** [open(p, 'wb+')]: creates the file or truncates it. *)
Definition open_write (p : pystr) : M unit :=
  fun s w =>
    match files w !! p with
    | Some Dir => (Raise OSError, s, w)
    | _ =>
        match open_fault w with
        | Some e => (Raise e, s, w)
        | None => (Return tt, s, set_files (<[p := File empty_file]> (files w)) w)
        end
    end.

(** [f.write(b)] on the file opened at [p], up to its closing. *)
Definition file_write (p : pystr) (b : content) : M unit :=
  fun s w =>
    match write_fault w with
    | Some (e, residue) => (Raise e, s, set_files (<[p := File residue]> (files w)) w)
    | None => (Return tt, s, set_files (<[p := File b]> (files w)) w)
    end.

(** ** The module *)

Section Memorize.

(** [unicodedata.normalize('NFKD', _)] and [os.path.abspath] *)
Variable unicodedata_normalize_NFKD : pystr -> pystr.
Variable os_path_abspath : pystr -> pystr.

(** [six.u] under Python 3 *)
Definition six_u (s : pystr) : pystr := s.

Definition _slugify (value : pystr) : pystr :=
  let value := encode_ascii_ignore (unicodedata_normalize_NFKD (six_u value)) in
  let value := re_sub_strip_other (decode_utf8_ignore value) in
  let value := lower (strip value) in
  let value := re_sub_runs value in
  value.

Definition get_cache_filename (self : memo) : pystr :=
  let filename := _slugify (str_replace (u ".py") (u "") (parent_filename self)) in
  let funcname := _slugify (name self) in
  os_path_join (folder self) (filename ++ u "_" ++ funcname ++ u ".cache").

Definition get_last_update : M Z :=
  let* p := gets parent_filepath in
  os_path_getmtime p.

(** [self.timestamp]: an [AttributeError] while the attribute is not set. *)
Definition get_timestamp : M pyval :=
  fun s w =>
    (match timestamp s with Some t => Return t | None => Raise AttributeError end, s, w).

Definition is_safe_cache : M bool :=
  let* last := get_last_update in
  let* ts := get_timestamp in
  let* newer := lift (py_time_gt last ts) in
  if newer then ret false else ret true.

Definition read_cache : M unit :=
  let* p := gets get_cache_filename in
  let* b := open_read p in
  let* data := lift (pickle_loads b) in
  let* t := lift (py_getitem data (VStr (u "timestamp"))) in
  modify (set_timestamp t) >>
  let* c := lift (py_getitem data (VStr (u "cache"))) in
  modify (set_cache c).

Definition save_cache : M unit :=
  let* p := gets get_cache_filename in
  open_write p >>
  let* last := get_last_update in
  let out := dict_set (VStr (u "timestamp")) (VInt last) [] in
  let* c := gets cache in
  let out := dict_set (VStr (u "cache")) c out in
  file_write p (pickle_dumps (VDict out)).

Definition cache_exists : M bool :=
  let* p := gets get_cache_filename in
  let* b := os_path_isfile p in
  if b then ret true else ret false.

Definition check_cache : M unit :=
  let* c := gets cache in
  match c with
  | VNone =>
      let* found := cache_exists in
      if found
      then try_except_EOFError read_cache
             (modify (set_cache (VDict [])))
             (let* safe := is_safe_cache in
              if negb safe then modify (set_cache (VDict [])) else ret tt)
      else modify (set_cache (VDict []))
  | _ => ret tt
  end.

(** [self.func( *args )]: one more invocation of the underlying function. *)
Definition call_func (args : list pyval) : M pyval :=
  fun s w => (fn_body (func s) args (calls w), s, tick w).

Definition wrapped_f (args : list pyval) : M pyval :=
  check_cache >>
  if negb (isinstance_Hashable (VTuple args))
  then call_func args
  else
    let* c := gets cache in
    let* hit := lift (py_contains c (VTuple args)) in
    if hit
    then
      let* c := gets cache in
      lift (py_getitem c (VTuple args))
    else
      let* value := call_func args in
      let* c := gets cache in
      let* c' := lift (py_setitem c (VTuple args) value) in
      modify (set_cache c') >>
      save_cache >>
      ret value.

(** A call of the wrapper with positional and keyword arguments.  The
    signature is [def wrapped_f( *args )]: binding the arguments fails on
    any keyword, before the body runs. *)
Definition call_wrapped_f (args : list pyval) (kwargs : list (pystr * pyval)) : M pyval :=
  match kwargs with
  | [] => wrapped_f args
  | _ :: _ => raise TypeError
  end.

(** [Memorize(dir)(f)], the decorator applied: [__init__] then [__call__]. *)
Definition decorate (dir : pystr) (f : pyfunc) (w : world) : result memo :=
  if os_path_isdir dir w
  then Return (Memo VNone None dir f
                 (os_path_abspath (fn_file f))
                 (os_path_basename (fn_file f))
                 (fn_name f))
  else Raise AssertionError.

(** *** The cache file name, as the specification words it

    Slugification "Unicode-normalizes, strips accents, lowercases, removes
    characters outside word-characters/whitespace/hyphen, collapses runs of
    whitespace/hyphen into a single hyphen, and trims leading/trailing
    hyphens/whitespace"; the file name is taken "minus its extension". *)

Fixpoint ltrim (p : N -> bool) (s : pystr) : pystr :=
  match s with
  | [] => []
  | c :: r => if p c then ltrim p r else s
  end.

Definition trim (p : N -> bool) (s : pystr) : pystr := rev (ltrim p (rev (ltrim p s))).

Definition slug_spec (value : pystr) : pystr :=
  let normalized := unicodedata_normalize_NFKD value in
  let unaccented := encode_ascii_ignore normalized in
  let lowered := lower unaccented in
  let cleaned := keep slug_char lowered in
  let collapsed := re_sub_runs cleaned in
  trim sep_char collapsed.

(** What precedes the last dot (the whole name when it has none). *)
Fixpoint minus_extension (s : pystr) : pystr :=
  match s with
  | [] => []
  | c :: r => if existsb (N.eqb 46) r then c :: minus_extension r
              else if c =? 46 then [] else s
  end.

(** The slug with the two steps the code orders differently: white space
    (not hyphens) is trimmed, and this before the runs are collapsed. *)
Definition slug_amended (value : pystr) : pystr :=
  let normalized := unicodedata_normalize_NFKD value in
  let unaccented := encode_ascii_ignore normalized in
  let lowered := lower unaccented in
  let cleaned := keep slug_char lowered in
  re_sub_runs (strip cleaned).

Definition cache_path_spec (self : memo) : pystr :=
  folder self ++ u "/" ++ slug_spec (minus_extension (parent_filename self))
    ++ u "_" ++ slug_spec (name self) ++ u ".cache".

(** The store that a call loads holds the arguments already. *)
Definition holds (args : list pyval) (s : memo) (w : world) : bool :=
  match check_cache s w with
  | (Return _, s0, _) =>
      match py_contains (cache s0) (VTuple args) with
      | Return true => true
      | _ => false
      end
  | _ => false
  end.

(** The cache file holds a pickled value whose [cache] field is the
    in-memory store. *)
Definition in_sync (s : memo) (w : world) : Prop :=
  match files w !! get_cache_filename s with
  | Some (File (Pickled data)) => py_getitem data (VStr (u "cache")) = Return (cache s)
  | _ => False
  end.

End Memorize.

(** ** Concrete data for the examples *)

(** NFKD on ASCII text: no code point below 128 has a decomposition, so an
    ASCII string is its own normal form.  The examples are ASCII. *)
Definition nfkd_ascii (s : pystr) : pystr := s.

(** [os.path.abspath] on a path that is absolute and normalized already. *)
Definition abspath_abs (p : pystr) : pystr := p.

(** [def square(x): return x * x], in [/src/m.py] *)
Definition square : pyfunc :=
  PyFunc (u "square") (u "/src/m.py")
    (fun args _ => match args with
                   | [VInt x] => Return (VInt (x * x))
                   | _ => Raise TypeError
                   end).

(** A function that returns the number of times it ran before. *)
Definition counter : pyfunc :=
  PyFunc (u "counter") (u "/src/m.py")
    (fun _ n => Return (VInt (Z.of_nat n))).

(** [def first(xs): return xs[0]], meant for a list argument *)
Definition first : pyfunc :=
  PyFunc (u "first") (u "/src/m.py")
    (fun args _ => match args with
                   | [c] => py_getitem c (VInt 0)
                   | _ => Raise TypeError
                   end).

(** A function that always raises. *)
Definition failing : pyfunc :=
  PyFunc (u "failing") (u "/src/m.py") (fun _ _ => Raise (OtherError 7)).

Definition cache_dir : pystr := u "/tmp/c".

(** The cache directory exists and is empty; the source file was last
    modified at time 100. *)
Definition world0 : world :=
  World {[ cache_dir := Dir ]} (fun _ => Some 100%Z) None None None O.

Definition memo_of (f : pyfunc) : memo :=
  Memo VNone None cache_dir f (fn_file f) (os_path_basename (fn_file f)) (fn_name f).

Definition square_cache : pystr := u "/tmp/c/m_square.cache".

(** [world0] with some content in the cache file of [square]. *)
Definition world_with (c : content) : world :=
  set_files (<[ square_cache := File c ]> (files world0)) world0.

(** The store of [square] after the call [square(4)], in memory and on
    disk. *)
Definition entries_16 : pyval := VDict [(VTuple [VInt 4], VInt 16)].

Definition memo_16 : memo := set_cache entries_16 (memo_of square).

(** A function [f] defined in [/src/-a.py]. *)
Definition dash_f : pyfunc :=
  PyFunc (u "f") (u "/src/-a.py") (fun _ _ => Return VNone).

(** A store as [save_cache] writes it. *)
Definition store (t : Z) (c : pyval) : pyval :=
  VDict [(VStr (u "timestamp"), VInt t); (VStr (u "cache"), c)].

Definition world_16 : world :=
  set_files (<[ square_cache := File (Pickled (store 100 entries_16)) ]> (files world0))
    (tick world0).

(** The cache file of [square] holds [(4,) -> 17], saved at time 99: the
    source file, modified at time 100, is newer. *)
Definition stale_world : world :=
  world_with (Pickled (store 99 (VDict [(VTuple [VInt 4], VInt 17)]))).

(** The cache file of [square] is not a pickle stream. *)
Definition malformed_world : world := world_with (Broken UnpicklingError).

(** The cache file of [square] is empty. *)
Definition empty_world : world := world_with (Broken EOFError).

(** The cache file cannot be opened for writing. *)
Definition readonly_world : world :=
  World (files world0) (getmtime world0) None (Some OSError) None O.

(** [def Square(x): return x * x], in the same file as [square] *)
Definition square_upper : pyfunc :=
  PyFunc (u "Square") (u "/src/m.py") (fn_body square).

(** The cache file of [square] holds its store, but the source file is
    gone: its modification time cannot be read. *)
Definition orphan_world : world :=
  World (files (world_with (Pickled (store 100 entries_16)))) (fun _ => None)
    None None None O.

(** The instance of [square], loaded with an empty store. *)
Definition memo_empty : memo := set_cache (VDict []) (memo_of square).

(** * Properties *)

(** ** Tactics *)

Ltac bool_lia :=
  unfold slug_out_char, slug_char, sep_char, is_word in *;
  unfold is_space, is_hyphen, is_digit, is_upper, is_lower, hyphen in *;
  rewrite ?orb_true_iff, ?andb_true_iff, ?orb_false_iff, ?andb_false_iff,
    ?N.leb_le, ?N.leb_gt, ?N.eqb_eq, ?N.eqb_neq in *;
  lia.

Ltac unfold_monad :=
  unfold bind, ret, raise, lift, gets, modify, try_except_EOFError in *.

Ltac unfold_io :=
  unfold os_path_isfile, os_path_getmtime, open_read, open_write, file_write,
    get_timestamp in *.

Arguments get_cache_filename : simpl never.

(** ** Python values: equality of hashable keys *)

Lemma py_eqb_refl (v : pyval) : hashable v = true -> py_eqb v v = true.
Proof.
  induction v as [ | z | s | l IH | l IH | d IH ] using pyval_nested_ind;
    simpl; intros Hh; try discriminate; try reflexivity.
  - apply Z.eqb_refl.
  - unfold pystr_eqb. apply bool_decide_eq_true. reflexivity.
  - induction IH as [ | x r Hx Hr IHr ]; [ reflexivity | ].
    simpl in Hh. apply andb_true_iff in Hh as [Hx' Hr'].
    rewrite (Hx Hx'). simpl. apply IHr, Hr'.
Qed.

Lemma dict_get_set_same (k v : pyval) (d : list (pyval * pyval)) :
  hashable k = true -> dict_get k (dict_set k v d) = Some v.
Proof.
  intros Hk. induction d as [ | [k' v'] r IH ]; simpl.
  - rewrite (py_eqb_refl k Hk). reflexivity.
  - destruct (py_eqb k' k) eqn:E; simpl; rewrite E; [ reflexivity | exact IH ].
Qed.

(** On a hashable right-hand side, [==] is equality. *)
Lemma py_eqb_eq (a : pyval) :
  forall b, hashable b = true -> py_eqb a b = true -> a = b.
Proof.
  induction a as [ | z | s | l IH | l IH | d IH ] using pyval_nested_ind;
    intros b Hb He; destruct b; simpl in He, Hb; try discriminate; try reflexivity.
  - apply Z.eqb_eq in He. subst. reflexivity.
  - unfold pystr_eqb in He. apply bool_decide_eq_true in He. subst. reflexivity.
  - f_equal. rename l0 into m. revert m Hb He.
    induction IH as [ | x r Hx Hr IHr ]; intros m Hb He; destruct m as [ | y m' ];
      try discriminate; [ reflexivity | ].
    simpl in Hb. apply andb_true_iff in Hb as [Hy Hm].
    apply andb_true_iff in He as [Hxy Hrm].
    rewrite (Hx y Hy Hxy), (IHr m' Hm Hrm). reflexivity.
Qed.

Lemma dict_get_set_other (k k' v : pyval) (d : list (pyval * pyval)) :
  hashable k = true -> hashable k' = true -> k <> k' ->
  dict_get k' (dict_set k v d) = dict_get k' d.
Proof.
  intros Hk Hk' Hne. induction d as [ | [k0 v0] r IH ]; simpl.
  - destruct (py_eqb k k') eqn:E; [ | reflexivity ].
    contradiction Hne. apply (py_eqb_eq k k' Hk' E).
  - destruct (py_eqb k0 k) eqn:E; simpl.
    + destruct (py_eqb k0 k') eqn:E'; [ | reflexivity ].
      contradiction Hne. rewrite <- (py_eqb_eq k0 k Hk E). apply (py_eqb_eq k0 k' Hk' E').
    + rewrite IH. reflexivity.
Qed.

Lemma getitem_store_timestamp (t : Z) (c : pyval) :
  py_getitem (store t c) (VStr (u "timestamp")) = Return (VInt t).
Proof. reflexivity. Qed.

Lemma getitem_store_cache (t : Z) (c : pyval) :
  py_getitem (store t c) (VStr (u "cache")) = Return c.
Proof. reflexivity. Qed.

(** ** Slugs and the cache file name *)

Lemma lower_char_space (c : N) : is_space (lower_char c) = is_space c.
Proof.
  unfold lower_char. destruct (is_upper c) eqn:E; [ | reflexivity ].
  destruct (is_space (c + 32)) eqn:A, (is_space c) eqn:B;
    try reflexivity; exfalso; bool_lia.
Qed.

Lemma lower_char_hyphen (c : N) : is_hyphen (lower_char c) = is_hyphen c.
Proof.
  unfold lower_char. destruct (is_upper c) eqn:E; [ | reflexivity ].
  destruct (is_hyphen (c + 32)) eqn:A, (is_hyphen c) eqn:B;
    try reflexivity; exfalso; bool_lia.
Qed.

Lemma lower_char_word (c : N) : is_word c = true -> is_word (lower_char c) = true.
Proof.
  unfold lower_char. destruct (is_upper c) eqn:E; [ | tauto ].
  intros _. destruct (is_word (c + 32)) eqn:A; [ reflexivity | exfalso; bool_lia ].
Qed.

Lemma lower_char_not_word (c : N) : is_word c = false -> is_word (lower_char c) = false.
Proof.
  unfold lower_char. destruct (is_upper c) eqn:E; [ | tauto ].
  intros H. exfalso. bool_lia.
Qed.

Lemma lower_char_slug (c : N) : slug_char (lower_char c) = slug_char c.
Proof.
  unfold slug_char. rewrite lower_char_space, lower_char_hyphen.
  destruct (is_word c) eqn:E.
  - rewrite (lower_char_word c E). reflexivity.
  - rewrite (lower_char_not_word c E). reflexivity.
Qed.

Lemma lower_char_out (c : N) :
  slug_char c = true -> sep_char (lower_char c) = false ->
  slug_out_char (lower_char c) = true.
Proof.
  unfold sep_char. rewrite lower_char_space, lower_char_hyphen.
  unfold lower_char. intros H1 H2.
  destruct (is_upper c) eqn:E.
  - destruct (slug_out_char (c + 32)) eqn:A; [ reflexivity | exfalso; bool_lia ].
  - destruct (slug_out_char c) eqn:A; [ reflexivity | exfalso; bool_lia ].
Qed.

Lemma not_sep_not_hyphen (c : N) : sep_char c = false -> is_hyphen c = false.
Proof. unfold sep_char. intros H. apply orb_false_iff in H as [H _]. exact H. Qed.

Lemma keep_lower (s : pystr) : keep slug_char (lower s) = lower (keep slug_char s).
Proof.
  induction s as [ | c r IH ]; [ reflexivity | ].
  simpl. rewrite lower_char_slug. destruct (slug_char c); simpl; rewrite IH; reflexivity.
Qed.

Lemma lstrip_lower (s : pystr) : lstrip (lower s) = lower (lstrip s).
Proof.
  induction s as [ | c r IH ]; [ reflexivity | ].
  simpl. rewrite lower_char_space. destruct (is_space c); [ exact IH | reflexivity ].
Qed.

Lemma strip_lower (s : pystr) : strip (lower s) = lower (strip s).
Proof.
  assert (Hrev : forall t, rev (lower t) = lower (rev t))
    by (intros t; unfold lower; symmetry; apply List.map_rev).
  unfold strip, rstrip. rewrite lstrip_lower, Hrev, lstrip_lower, Hrev. reflexivity.
Qed.

Lemma keep_all (p : N -> bool) (s : pystr) : Forall (fun c => p c = true) (keep p s).
Proof.
  induction s as [ | c r IH ]; simpl; [ constructor | ].
  destruct (p c) eqn:E; [ constructor; assumption | exact IH ].
Qed.

Lemma lstrip_all (P : N -> Prop) (s : pystr) : Forall P s -> Forall P (lstrip s).
Proof.
  induction 1 as [ | c r Hc Hr IH ]; simpl; [ constructor | ].
  destruct (is_space c); [ exact IH | constructor; assumption ].
Qed.

Lemma strip_all (P : N -> Prop) (s : pystr) : Forall P s -> Forall P (strip s).
Proof.
  intros H. unfold strip, rstrip.
  apply List.Forall_rev, lstrip_all, List.Forall_rev, lstrip_all, H.
Qed.

Lemma lower_all (s : pystr) :
  Forall (fun c => slug_char c = true) s ->
  Forall (fun c => sep_char c = false -> slug_out_char c = true) (lower s).
Proof.
  induction 1 as [ | c r Hc Hr IH ]; simpl; constructor; [ | exact IH ].
  apply lower_char_out, Hc.
Qed.

Lemma sub_runs_all (b : bool) (s : pystr) :
  Forall (fun c => sep_char c = false -> slug_out_char c = true) s ->
  Forall (fun c => slug_out_char c = true) (sub_runs b s).
Proof.
  intros H. revert b. induction H as [ | c r Hc Hr IH ]; intros b; simpl;
    [ constructor | ].
  destruct (sep_char c) eqn:E.
  - destruct b; [ apply IH | constructor; [ reflexivity | apply IH ] ].
  - constructor; [ apply Hc; reflexivity | apply IH ].
Qed.

(** Inside a run no hyphen is written: what follows does not start with one. *)
Lemma sub_runs_in_run (s : pystr) :
  match sub_runs true s with
  | [] => True
  | c :: _ => is_hyphen c = false
  end.
Proof.
  induction s as [ | c r IH ]; simpl; [ exact I | ].
  destruct (sep_char c) eqn:E; [ exact IH | apply not_sep_not_hyphen, E ].
Qed.

Lemma sub_runs_no_double (b : bool) (s : pystr) :
  no_double_hyphen (sub_runs b s) = true.
Proof.
  revert b. induction s as [ | c r IH ]; intros b; [ reflexivity | ].
  simpl. destruct (sep_char c) eqn:E.
  - destruct b; [ apply IH | ].
    pose proof (sub_runs_in_run r) as Hr. pose proof (IH true) as Hn.
    simpl. destruct (sub_runs true r) as [ | c' r' ]; [ reflexivity | ].
    rewrite Hr, ?andb_false_r. simpl. exact Hn.
  - pose proof (IH false) as Hn. simpl.
    destruct (sub_runs false r) as [ | c' r' ]; [ reflexivity | ].
    rewrite (not_sep_not_hyphen c E). simpl. exact Hn.
Qed.

(** [s.replace('.py', '')] takes the extension off a name in which
    [.py] occurs nowhere else. *)
Lemma replace_py_extension (stem : pystr) :
  is_substring (u ".py") stem = false ->
  str_replace (u ".py") (u "") (stem ++ u ".py") = stem.
Proof.
  unfold str_replace. change (u ".py") with [46; 112; 121]. change (u "") with (@nil N).
  induction stem as [ | c r IH ]; intros H; [ reflexivity | ].
  cbn [is_substring] in H. apply orb_false_iff in H as [Hhere Hlater].
  assert (Hstart : startswith [46; 112; 121] (c :: (r ++ [46; 112; 121])) = false).
  { cbn [startswith app] in Hhere |- *.
    destruct (46 =? c); [ | reflexivity ]. cbn [andb] in *.
    destruct r as [ | c2 r2 ]; [ reflexivity | ]. cbn [startswith app] in *.
    destruct (112 =? c2); [ | reflexivity ]. cbn [andb] in *.
    destruct r2 as [ | c3 r3 ]; [ reflexivity | ]. cbn [startswith app] in *.
    destruct (121 =? c3); [ discriminate | reflexivity ]. }
  cbn [app replace_from]. rewrite Hstart. f_equal. apply IH, Hlater.
Qed.

Section CacheFileName.

Variable nf : pystr -> pystr.

Lemma slugify_chars (value : pystr) :
  Forall (fun c => slug_out_char c = true) (_slugify nf value).
Proof.
  unfold _slugify, re_sub_runs, re_sub_strip_other, decode_utf8_ignore.
  apply sub_runs_all, lower_all, strip_all, keep_all.
Qed.

Lemma slugify_amended (value : pystr) : _slugify nf value = slug_amended nf value.
Proof.
  unfold _slugify, slug_amended, re_sub_strip_other, decode_utf8_ignore, six_u.
  rewrite keep_lower, strip_lower. reflexivity.
Qed.

Lemma slug_name_not_absolute (a b : pystr) :
  Forall (fun c => slug_out_char c = true) a ->
  startswith (u "/") (a ++ u "_" ++ b) = false.
Proof.
  intros H. change (u "/") with [47]. change (u "_") with [95].
  destruct H as [ | c r Hc _ ]; [ reflexivity | ].
  cbn [app startswith]. destruct (47 =? c) eqn:E; [ | reflexivity ].
  apply N.eqb_eq in E. subst c. discriminate Hc.
Qed.

(** C5 (amended). For a source file [stem.py] in which [.py] occurs only
    as the extension, the cache file is
    [os.path.join(cache_dir, slug(stem) + '_' + slug(funcname) + '.cache')]:
    the directory, a slash unless the directory is empty or ends with one,
    and the name.  The slug NFKD-normalizes, drops what is not ASCII (so
    accents go), lowercases, removes the characters that are not word
    characters, white space or hyphens, trims leading and trailing white
    space (hyphens are kept), and turns each run of white space and
    hyphens into one hyphen; it is made of lower case letters, digits,
    underscores and single hyphens. *)
Theorem cache_filename_shape (self : memo) (stem : pystr) :
  parent_filename self = stem ++ u ".py" ->
  is_substring (u ".py") stem = false ->
  get_cache_filename nf self =
    folder self ++ join_sep (folder self) ++
    _slugify nf stem ++ u "_" ++ _slugify nf (name self) ++ u ".cache"
  /\ forall value,
       _slugify nf value = slug_amended nf value
       /\ Forall (fun c => slug_out_char c = true) (_slugify nf value)
       /\ no_double_hyphen (_slugify nf value) = true.
Proof.
  intros Hname Hstem. split.
  - unfold get_cache_filename. rewrite Hname, (replace_py_extension stem Hstem).
    unfold os_path_join, join_sep.
    rewrite (slug_name_not_absolute _ _ (slugify_chars stem)).
    destruct (_ || _); reflexivity.
  - intros value. split; [ apply slugify_amended | ].
    split; [ apply slugify_chars | apply sub_runs_no_double ].
Qed.

Lemma slug_no_slash (s : pystr) :
  Forall (fun c => slug_out_char c = true) s -> existsb (N.eqb 47) s = false.
Proof.
  induction 1 as [ | c r Hc Hr IH ]; cbn [existsb]; [ reflexivity | ].
  rewrite IH, orb_false_r. destruct (47 =? c) eqn:E; [ | reflexivity ].
  apply N.eqb_eq in E. subst c. discriminate Hc.
Qed.

(** X3. Whatever the source file and the function are called, the cache
    file lies directly in the cache directory: its path is the directory, a
    slash unless the directory is empty or ends with one, and a name
    without any slash. *)
Theorem cache_file_in_folder (self : memo) :
  let base :=
    _slugify nf (str_replace (u ".py") (u "") (parent_filename self))
      ++ u "_" ++ _slugify nf (name self) ++ u ".cache" in
  get_cache_filename nf self = folder self ++ join_sep (folder self) ++ base /\
  existsb (N.eqb 47) base = false.
Proof.
  intros base. split.
  - unfold get_cache_filename, os_path_join, join_sep. fold base.
    unfold base at 1. rewrite (slug_name_not_absolute _ _ (slugify_chars _)).
    destruct (_ || _); reflexivity.
  - unfold base. rewrite !existsb_app.
    rewrite (slug_no_slash _ (slugify_chars (str_replace _ _ _))).
    rewrite (slug_no_slash _ (slugify_chars (name self))). reflexivity.
Qed.

End CacheFileName.

(** ** Slugs are stable *)

Lemma keep_id (p : N -> bool) (s : pystr) :
  Forall (fun c => p c = true) s -> keep p s = s.
Proof.
  induction 1 as [ | c r Hc Hr IH ]; simpl; [ reflexivity | ].
  rewrite Hc, IH. reflexivity.
Qed.

Lemma lower_id (s : pystr) :
  Forall (fun c => is_upper c = false) s -> lower s = s.
Proof.
  unfold lower. induction 1 as [ | c r Hc Hr IH ]; simpl; [ reflexivity | ].
  unfold lower_char at 1. rewrite Hc, IH. reflexivity.
Qed.

Lemma lstrip_id (s : pystr) :
  Forall (fun c => is_space c = false) s -> lstrip s = s.
Proof. destruct 1 as [ | c r Hc Hr ]; simpl; [ | rewrite Hc ]; reflexivity. Qed.

Lemma strip_id (s : pystr) :
  Forall (fun c => is_space c = false) s -> strip s = s.
Proof.
  intros H. unfold strip, rstrip. rewrite (lstrip_id s H).
  rewrite lstrip_id by (apply List.Forall_rev, H). apply rev_involutive.
Qed.

Lemma sub_runs_id (b : bool) (s : pystr) :
  Forall (fun c => is_space c = false) s ->
  no_double_hyphen s = true ->
  (b = true -> match s with [] => True | c :: _ => is_hyphen c = false end) ->
  sub_runs b s = s.
Proof.
  intros H. revert b. induction H as [ | c r Hc Hr IH ]; intros b Hn Hb;
    [ reflexivity | ].
  assert (Hn' : no_double_hyphen r = true).
  { simpl in Hn. destruct r; [ reflexivity | ].
    apply andb_true_iff in Hn as [_ Hn]. exact Hn. }
  cbn [sub_runs]. unfold sep_char. rewrite Hc, orb_false_r.
  destruct (is_hyphen c) eqn:E.
  - destruct b; [ specialize (Hb eq_refl); simpl in Hb; congruence | ].
    unfold is_hyphen in E. apply N.eqb_eq in E. subst c. f_equal.
    apply IH; [ exact Hn' | ]. intros _. simpl in Hn.
    destruct r as [ | c' r' ]; [ exact I | ].
    apply andb_true_iff in Hn as [Hn _]. simpl in Hn.
    destruct (is_hyphen c'); [ discriminate | reflexivity ].
  - f_equal. apply IH; [ exact Hn' | discriminate ].
Qed.

Lemma slug_out_ascii (c : N) : slug_out_char c = true -> (c <? 128) = true.
Proof.
  intros H. destruct (c <? 128) eqn:E; [ reflexivity | exfalso ].
  apply N.ltb_ge in E. bool_lia.
Qed.

Lemma slug_out_slug (c : N) : slug_out_char c = true -> slug_char c = true.
Proof. intros H. destruct (slug_char c) eqn:E; [ reflexivity | exfalso; bool_lia ]. Qed.

Lemma slug_out_not_space (c : N) : slug_out_char c = true -> is_space c = false.
Proof. intros H. destruct (is_space c) eqn:E; [ exfalso; bool_lia | reflexivity ]. Qed.

Lemma slug_out_not_upper (c : N) : slug_out_char c = true -> is_upper c = false.
Proof. intros H. destruct (is_upper c) eqn:E; [ exfalso; bool_lia | reflexivity ]. Qed.

Lemma lower_char_ascii (c : N) : (c <? 128) = true -> (lower_char c <? 128) = true.
Proof.
  unfold lower_char. intros H. destruct (is_upper c) eqn:E; [ | exact H ].
  destruct (c + 32 <? 128) eqn:A; [ reflexivity | exfalso ].
  unfold is_upper in E. rewrite andb_true_iff, !N.leb_le in E.
  apply N.ltb_ge in A. lia.
Qed.

Lemma lower_lower (s : pystr) : lower (lower s) = lower s.
Proof.
  apply lower_id. induction s as [ | c r IH ]; simpl; constructor; [ | exact IH ].
  unfold lower_char. destruct (is_upper c) eqn:E; [ | exact E ].
  destruct (is_upper (c + 32)) eqn:A; [ exfalso; bool_lia | reflexivity ].
Qed.

Section SlugStability.

Variable nf : pystr -> pystr.

(** NFKD leaves ASCII text as it is. *)
Hypothesis nf_ascii : forall s, Forall (fun c => (c <? 128) = true) s -> nf s = s.

(** X1. A slug is its own slug: slugifying twice gives what slugifying
    once gives. *)
Theorem slugify_idempotent (value : pystr) :
  _slugify nf (_slugify nf value) = _slugify nf value.
Proof.
  pose proof (slugify_chars nf value) as Hout.
  pose proof (sub_runs_no_double false
                (lower (strip (re_sub_strip_other (decode_utf8_ignore
                   (encode_ascii_ignore (nf (six_u value)))))))) as Hn.
  change (sub_runs false _) with (_slugify nf value) in Hn.
  set (y := _slugify nf value) in *.
  unfold _slugify at 1. unfold six_u, decode_utf8_ignore, re_sub_strip_other,
    encode_ascii_ignore, re_sub_runs.
  rewrite nf_ascii by (eapply List.Forall_impl; [ | exact Hout ]; apply slug_out_ascii).
  rewrite (keep_id (fun c => c <? 128) y)
    by (eapply List.Forall_impl; [ | exact Hout ]; apply slug_out_ascii).
  rewrite (keep_id slug_char y)
    by (eapply List.Forall_impl; [ | exact Hout ]; apply slug_out_slug).
  rewrite strip_id by (eapply List.Forall_impl; [ | exact Hout ]; apply slug_out_not_space).
  rewrite lower_id by (eapply List.Forall_impl; [ | exact Hout ]; apply slug_out_not_upper).
  apply sub_runs_id; [ | exact Hn | discriminate ].
  eapply List.Forall_impl; [ | exact Hout ]. apply slug_out_not_space.
Qed.

Lemma slugify_lower (value : pystr) :
  Forall (fun c => (c <? 128) = true) value ->
  _slugify nf (lower value) = _slugify nf value.
Proof.
  intros H.
  assert (Hl : Forall (fun c => (c <? 128) = true) (lower value)).
  { induction H as [ | c r Hc Hr IH ]; simpl; constructor;
      [ apply lower_char_ascii, Hc | exact IH ]. }
  unfold _slugify, six_u, decode_utf8_ignore, re_sub_strip_other, encode_ascii_ignore.
  rewrite (nf_ascii _ H), (nf_ascii _ Hl), (keep_id _ _ H), (keep_id _ _ Hl).
  rewrite keep_lower, strip_lower, lower_lower. reflexivity.
Qed.

(** X2. Case is lost in the file name: two functions of one source file
    whose ASCII names differ only in the case of letters are given the
    same cache file. *)
Theorem names_differing_in_case_collide (s1 s2 : memo) :
  folder s1 = folder s2 ->
  parent_filename s1 = parent_filename s2 ->
  Forall (fun c => (c <? 128) = true) (name s1) ->
  Forall (fun c => (c <? 128) = true) (name s2) ->
  lower (name s1) = lower (name s2) ->
  get_cache_filename nf s1 = get_cache_filename nf s2.
Proof.
  intros Hf Hp H1 H2 Hl. unfold get_cache_filename.
  rewrite Hf, Hp, <- (slugify_lower (name s1) H1), <- (slugify_lower (name s2) H2), Hl.
  reflexivity.
Qed.

End SlugStability.

(** ** The wrapper *)

Section MemorizeProofs.

Variable nf : pystr -> pystr.

Lemma same_binding_filename (s s' : memo) :
  same_binding s s' -> get_cache_filename nf s' = get_cache_filename nf s.
Proof.
  intros (Hf & _ & _ & Hp & Hn). unfold get_cache_filename.
  rewrite Hf, Hp, Hn. reflexivity.
Qed.

Lemma check_cache_loaded (s : memo) (w : world) :
  cache s <> VNone -> check_cache nf s w = (Return tt, s, w).
Proof.
  intros Hc. unfold check_cache. unfold_monad.
  destruct (cache s); [ contradiction | reflexivity .. ].
Qed.

(** [check_cache] only reads: the world is the same afterwards, and so
    are the attributes of the binding. *)
Lemma check_cache_reads (s : memo) (w : world) r s' w' :
  check_cache nf s w = (r, s', w') -> w' = w /\ same_binding s s'.
Proof.
  unfold check_cache, cache_exists, read_cache, is_safe_cache, get_last_update.
  unfold_monad. unfold_io. intros H.
  repeat (case_match; simplify_eq; simpl in *);
    (split; [ reflexivity | repeat split; reflexivity ]).
Qed.

(** The first steps of a call, up to the decision the loaded store takes. *)
Lemma wrapped_f_after_check (args : list pyval) (s : memo) (w : world) :
  wrapped_f nf args s w =
  match check_cache nf s w with
  | (Return _, s0, w0) =>
      match py_contains (cache s0) (VTuple args) with
      | Return true => (py_getitem (cache s0) (VTuple args), s0, w0)
      | Return false =>
          match fn_body (func s0) args (calls w0) with
          | Return value =>
              match py_setitem (cache s0) (VTuple args) value with
              | Return c' =>
                  match save_cache nf (set_cache c' s0) (tick w0) with
                  | (Return _, s2, w2) => (Return value, s2, w2)
                  | (Raise e, s2, w2) => (Raise e, s2, w2)
                  end
              | Raise e => (Raise e, s0, tick w0)
              end
          | Raise e => (Raise e, s0, tick w0)
          end
      | Raise e => (Raise e, s0, w0)
      end
  | (Raise e, s0, w0) => (Raise e, s0, w0)
  end.
Proof.
  unfold wrapped_f, call_func. unfold_monad. simpl.
  destruct (check_cache nf s w) as [[[ [] | e ] s0] w0]; [ | reflexivity ].
  destruct (py_contains (cache s0) (VTuple args)) as [ [ | ] | e ]; reflexivity.
Qed.

(** What [save_cache] does, fault by fault. *)
Lemma save_cache_outcome (s : memo) (w : world) :
  save_cache nf s w =
  let p := get_cache_filename nf s in
  match files w !! p with
  | Some Dir => (Raise OSError, s, w)
  | _ =>
      match open_fault w with
      | Some e => (Raise e, s, w)
      | None =>
          match getmtime w (parent_filepath s) with
          | None => (Raise OSError, s, set_files (<[p := File empty_file]> (files w)) w)
          | Some t =>
              match write_fault w with
              | Some (e, residue) =>
                  (Raise e, s, set_files (<[p := File residue]> (files w)) w)
              | None =>
                  (Return tt, s,
                   set_files (<[p := File (Pickled (store t (cache s)))]> (files w)) w)
              end
          end
      end
  end.
Proof.
  unfold save_cache, get_last_update. unfold_monad. unfold_io. simpl.
  set (p := get_cache_filename nf s).
  destruct (files w !! p) as [ [ | c ] | ]; try reflexivity;
    destruct (open_fault w); try reflexivity; simpl;
    destruct (getmtime w (parent_filepath s)); try reflexivity; simpl;
    destruct (write_fault w) as [ [e residue] | ]; simpl;
    unfold set_files; simpl; rewrite insert_insert_eq; reflexivity.
Qed.

(** C7. [check_cache] is idempotent: once the in-memory cache is not
    [None], a call returns at once and changes neither the instance nor
    the world (the files on disk in particular). *)
Theorem check_cache_idempotent (s : memo) (w : world) :
  cache s <> VNone ->
  check_cache nf s w = (Return tt, s, w) /\
  forall r s' w', check_cache nf s w = (r, s', w') -> files w' = files w /\ cache s' = cache s.
Proof.
  intros Hc. pose proof (check_cache_loaded s w Hc) as H. split; [ exact H | ].
  intros r s' w' H'. rewrite H in H'. injection H' as <- <- <-. split; reflexivity.
Qed.

(** C9. The wrapper takes positional arguments only: a call that passes a
    keyword raises [TypeError] before the body runs, so before the cache
    is looked at; nothing changes and the function is not invoked. *)
Theorem keyword_call_raises (args : list pyval) (kwargs : list (pystr * pyval))
    (s : memo) (w : world) :
  kwargs <> [] ->
  call_wrapped_f nf args kwargs s w = (Raise TypeError, s, w).
Proof.
  intros Hk. destruct kwargs as [ | kv r ]; [ contradiction | reflexivity ].
Qed.

(** C8. When a call really invokes the underlying function and the
    function raises [e], the call raises [e]; the files are as before the
    call, and the instance is as [check_cache] left it (unchanged when the
    store was loaded already): no entry is stored, nothing is persisted. *)
Theorem func_error_propagates (args : list pyval) (s : memo) (w : world)
    (r : result pyval) (s1 : memo) (w1 : world) (e : exn) :
  wrapped_f nf args s w = (r, s1, w1) ->
  calls w1 <> calls w ->
  fn_body (func s) args (calls w) = Raise e ->
  r = Raise e /\ files w1 = files w /\ calls w1 = S (calls w) /\
  check_cache nf s w = (Return tt, s1, w) /\
  (cache s <> VNone -> s1 = s).
Proof.
  intros Hrun Hcalls Hf. rewrite wrapped_f_after_check in Hrun.
  destruct (check_cache nf s w) as [[[ [] | e0 ] s0] w0] eqn:Hcheck.
  2:{ apply check_cache_reads in Hcheck as [-> _].
      injection Hrun as <- <- <-. contradiction. }
  pose proof (check_cache_reads _ _ _ _ _ Hcheck) as [-> (_ & Hfunc & _)].
  rewrite Hfunc, Hf in Hrun.
  destruct (py_contains (cache s0) (VTuple args)) as [ [ | ] | e0 ];
    injection Hrun as <- <- <-; try contradiction.
  repeat split; try reflexivity.
  intros Hc. rewrite (check_cache_loaded s w Hc) in Hcheck.
  injection Hcheck as <-. reflexivity.
Qed.

Lemma save_cache_keeps (s : memo) (w : world) r s' w' :
  save_cache nf s w = (r, s', w') -> s' = s /\ calls w' = calls w.
Proof.
  rewrite save_cache_outcome. simpl. intros H.
  repeat (case_match; simplify_eq; simpl in *); split; reflexivity.
Qed.

Lemma contains_getitem_dict (c k v : pyval) :
  py_contains c k = Return true -> py_getitem c k = Return v ->
  hashable k = true -> isinstance_Hashable k = true ->
  match k with VTuple _ => True | _ => False end ->
  exists d, c = VDict d /\ dict_get k d = Some v.
Proof.
  intros Hin Hget Hk _ Ht. destruct k; try contradiction.
  destruct c; simpl in *; try discriminate.
  rewrite Hk in *. exists d. split; [ reflexivity | ].
  destruct (dict_get (VTuple l) d); congruence.
Qed.

Lemma holds_cold (args : list pyval) (s : memo) (w : world) :
  cache s = VNone -> files w !! get_cache_filename nf s = None ->
  hashable (VTuple args) = true ->
  holds nf args s w = false.
Proof.
  intros Hc Hfile Hh. unfold holds, check_cache, cache_exists.
  unfold_monad. unfold_io. rewrite Hc. simpl. rewrite Hfile. simpl.
  simpl in Hh. rewrite Hh. reflexivity.
Qed.

(** C1. For a tuple of hashable arguments, when a call of the wrapper
    returns [v], calling it again with the same arguments returns [v]
    without invoking the underlying function (nothing changes at all).
    Over the two calls the function is invoked exactly once when the store
    the first call loads does not hold the arguments, as on a fresh
    instance without cache file; when the loaded store holds them already
    (a file kept from an earlier run), the first call is a hit as well. *)
Theorem second_call_is_a_hit (args : list pyval) (s : memo) (w : world)
    (v : pyval) (s1 : memo) (w1 : world) :
  hashable (VTuple args) = true ->
  wrapped_f nf args s w = (Return v, s1, w1) ->
  wrapped_f nf args s1 w1 = (Return v, s1, w1) /\
  calls w1 = (if holds nf args s w then calls w else S (calls w)) /\
  (cache s = VNone -> files w !! get_cache_filename nf s = None ->
   calls w1 = S (calls w)).
Proof.
  intros Hh Hrun.
  assert (Hmain : wrapped_f nf args s1 w1 = (Return v, s1, w1) /\
                  calls w1 = (if holds nf args s w then calls w else S (calls w))).
  2:{ destruct Hmain as [H1 H2]. split; [ exact H1 | split; [ exact H2 | ] ].
      intros Hc Hfile. rewrite (holds_cold args s w Hc Hfile Hh) in H2. exact H2. }
  unfold holds. rewrite wrapped_f_after_check in Hrun.
  destruct (check_cache nf s w) as [[[ [] | e0 ] s0] w0] eqn:Hcheck;
    [ | discriminate ].
  apply check_cache_reads in Hcheck as [-> _].
  destruct (py_contains (cache s0) (VTuple args)) as [ [ | ] | e0 ] eqn:Hin;
    [ | | discriminate ].
  - (* the first call is a hit already *)
    injection Hrun as Hget <- <-.
    destruct (contains_getitem_dict _ _ _ Hin Hget Hh eq_refl I) as (d & Hd & Hv).
    split; [ | reflexivity ].
    rewrite wrapped_f_after_check, check_cache_loaded by (rewrite Hd; discriminate).
    rewrite Hin, Hget. reflexivity.
  - (* the first call is a miss *)
    destruct (fn_body (func s0) args (calls w)) as [ value | e0 ]; [ | discriminate ].
    destruct (cache s0) as [ | | | | | d ] eqn:Hd; simpl in Hrun, Hin;
      try discriminate; try (destruct args; discriminate).
    simpl in Hh. rewrite Hh in Hrun.
    destruct (save_cache nf _ (tick w)) as [[[ [] | e0 ] s2] w2] eqn:Hsave;
      [ | discriminate ].
    injection Hrun as <- <- <-.
    apply save_cache_keeps in Hsave as [-> Hcalls]. split; [ | exact Hcalls ].
    rewrite wrapped_f_after_check, check_cache_loaded by discriminate.
    simpl. rewrite Hh, dict_get_set_same by exact Hh. reflexivity.
Qed.

(** C6. On a miss the call computes [value], stores it and persists the
    whole store before it returns: when the call returns, the cache file
    holds the time stamp and every entry.  A failure to write (the path is
    a directory, the file cannot be opened, the modification time cannot
    be read, the write fails) is raised to the caller. *)
Theorem miss_persists_or_raises (args : list pyval) (s s0 : memo) (w : world)
    (d : list (pyval * pyval)) (value : pyval) :
  check_cache nf s w = (Return tt, s0, w) ->
  cache s0 = VDict d ->
  hashable (VTuple args) = true ->
  dict_get (VTuple args) d = None ->
  fn_body (func s) args (calls w) = Return value ->
  let p := get_cache_filename nf s in
  let d' := dict_set (VTuple args) value d in
  let s' := set_cache (VDict d') s0 in
  let w' := tick w in
  wrapped_f nf args s w =
  match files w !! p with
  | Some Dir => (Raise OSError, s', w')
  | _ =>
      match open_fault w with
      | Some e => (Raise e, s', w')
      | None =>
          match getmtime w (parent_filepath s) with
          | None => (Raise OSError, s', set_files (<[p := File empty_file]> (files w)) w')
          | Some t =>
              match write_fault w with
              | Some (e, residue) =>
                  (Raise e, s', set_files (<[p := File residue]> (files w)) w')
              | None =>
                  (Return value, s',
                   set_files (<[p := File (Pickled (store t (VDict d')))]> (files w)) w')
              end
          end
      end
  end.
Proof.
  intros Hcheck Hd Hh Hmiss Hf p d' s' w'.
  pose proof (check_cache_reads _ _ _ _ _ Hcheck) as [_ Hb].
  pose proof (same_binding_filename _ _ Hb) as Hp.
  destruct Hb as (_ & Hfunc & Hpath & _).
  rewrite wrapped_f_after_check, Hcheck, Hd. unfold py_contains, py_setitem.
  rewrite Hh, Hmiss, Hfunc, Hf. fold d'.
  rewrite save_cache_outcome. cbn zeta.
  change (set_cache (VDict d') s0) with s'.
  replace (get_cache_filename nf s') with p
    by (symmetry; etransitivity; [ | exact Hp ]; reflexivity).
  simpl. rewrite Hpath.
  destruct (files w !! p) as [ [ | c ] | ]; try reflexivity;
    destruct (open_fault w); try reflexivity;
    destruct (getmtime w (parent_filepath s)); try reflexivity;
    destruct (write_fault w) as [ [e residue] | ]; reflexivity.
Qed.

Lemma wrapped_f_empty_store (args : list pyval) (s : memo) (w : world) :
  cache s = VDict [] -> hashable (VTuple args) = true ->
  calls (snd (wrapped_f nf args s w)) = S (calls w).
Proof.
  intros Hc Hh. rewrite wrapped_f_after_check, check_cache_loaded
    by (rewrite Hc; discriminate).
  rewrite Hc. unfold py_contains, py_setitem. rewrite Hh. simpl.
  destruct (fn_body (func s) args (calls w)); [ | reflexivity ].
  destruct (save_cache nf _ (tick w)) as [[r s2] w2] eqn:Hsave.
  apply save_cache_keeps in Hsave as [_ Hcalls].
  destruct r as [ [] | ]; exact Hcalls.
Qed.

(** A call on an instance that is not loaded yet continues from the
    state [check_cache] reaches. *)
Lemma wrapped_f_from_loaded (args : list pyval) (s s0 : memo) (w : world) :
  check_cache nf s w = (Return tt, s0, w) -> cache s0 <> VNone ->
  wrapped_f nf args s w = wrapped_f nf args s0 w.
Proof.
  intros Hcheck Hc.
  rewrite (wrapped_f_after_check args s0), check_cache_loaded by exact Hc.
  rewrite wrapped_f_after_check, Hcheck. reflexivity.
Qed.

(** C3 (amended). When unpickling the cache file raises [EOFError] (an
    empty or cut-off file), [check_cache] does not propagate it: the store
    starts empty and the call behaves as on a cold cache, the function
    being computed.  Any other error of unpickling (a malformed stream)
    is raised to the caller, and the instance stays unloaded. *)
Theorem eof_file_is_a_cold_cache (s : memo) (w : world) (e : exn) :
  cache s = VNone ->
  files w !! get_cache_filename nf s = Some (File (Broken e)) ->
  read_fault w = None ->
  check_cache nf s w =
    (if is_EOFError e then (Return tt, set_cache (VDict []) s, w) else (Raise e, s, w)) /\
  (is_EOFError e = true ->
   forall args, hashable (VTuple args) = true ->
     wrapped_f nf args s w = wrapped_f nf args (set_cache (VDict []) s) w /\
     calls (snd (wrapped_f nf args s w)) = S (calls w)) /\
  (is_EOFError e = false ->
   forall args, wrapped_f nf args s w = (Raise e, s, w)).
Proof.
  intros Hc Hfile Hread.
  assert (Hcheck : check_cache nf s w =
    (if is_EOFError e then (Return tt, set_cache (VDict []) s, w) else (Raise e, s, w))).
  { unfold check_cache, cache_exists, read_cache. unfold_monad. unfold_io.
    rewrite Hc. simpl. rewrite !Hfile. simpl. rewrite Hread. simpl.
    destruct (is_EOFError e); reflexivity. }
  split; [ exact Hcheck | split ].
  - intros He args Hh. rewrite He in Hcheck.
    rewrite (wrapped_f_from_loaded args s _ w Hcheck) by discriminate.
    split; [ reflexivity | ]. apply wrapped_f_empty_store; [ reflexivity | exact Hh ].
  - intros He args. rewrite He in Hcheck.
    rewrite wrapped_f_after_check, Hcheck. reflexivity.
Qed.

(** C4. A store read from the cache file is accepted only if its saved
    time stamp is not older than the source file's modification time;
    otherwise the in-memory store starts empty, and the next call with
    any hashable arguments, cached before or not, invokes the function. *)
Theorem stale_store_is_discarded (s : memo) (w : world) (data c : pyval)
    (saved mtime : Z) :
  cache s = VNone ->
  files w !! get_cache_filename nf s = Some (File (Pickled data)) ->
  read_fault w = None ->
  py_getitem data (VStr (u "timestamp")) = Return (VInt saved) ->
  py_getitem data (VStr (u "cache")) = Return c ->
  getmtime w (parent_filepath s) = Some mtime ->
  check_cache nf s w =
    (Return tt,
     set_cache (if (mtime <=? saved)%Z then c else VDict []) (set_timestamp (VInt saved) s),
     w) /\
  ((saved < mtime)%Z ->
   forall args, hashable (VTuple args) = true ->
     calls (snd (wrapped_f nf args s w)) = S (calls w)).
Proof.
  intros Hc Hfile Hread Hts Hstore Hm.
  assert (Hcheck : check_cache nf s w =
    (Return tt,
     set_cache (if (mtime <=? saved)%Z then c else VDict []) (set_timestamp (VInt saved) s),
     w)).
  { unfold check_cache, cache_exists, read_cache, is_safe_cache, get_last_update.
    unfold_monad. unfold_io. rewrite Hc. simpl. rewrite !Hfile. simpl.
    rewrite Hread. simpl. rewrite Hts. simpl. rewrite Hstore. simpl.
    rewrite Hm. simpl.
    rewrite Z.ltb_antisym. destruct (mtime <=? saved)%Z; reflexivity. }
  split; [ exact Hcheck | ].
  intros Hlt args Hh.
  assert (Hle : (mtime <=? saved)%Z = false) by (apply Z.leb_gt; exact Hlt).
  rewrite Hle in Hcheck.
  rewrite (wrapped_f_from_loaded args s _ w Hcheck) by discriminate.
  apply wrapped_f_empty_store; [ reflexivity | exact Hh ].
Qed.

(** C10 (amended). After every call of [check_cache] that returns
    normally, the in-memory cache is a dictionary, whichever branch was
    taken (no file, a file that raises [EOFError], a stale store, a store
    accepted), provided the instance was unloaded or held a dictionary,
    and the [cache] field of a store read from the file is a dictionary,
    as [save_cache] writes it. *)
Theorem check_cache_leaves_a_dict (s : memo) (w : world) (s' : memo) (w' : world) :
  check_cache nf s w = (Return tt, s', w') ->
  cache s = VNone \/ is_dict (cache s) = true ->
  (forall data c,
     files w !! get_cache_filename nf s = Some (File (Pickled data)) ->
     py_getitem data (VStr (u "cache")) = Return c -> is_dict c = true) ->
  is_dict (cache s') = true.
Proof.
  intros Hcheck [Hc | Hc] Hstored.
  2:{ rewrite check_cache_loaded in Hcheck by (intros E; rewrite E in Hc; discriminate).
      injection Hcheck as <- <-. exact Hc. }
  revert Hcheck.
  unfold check_cache, cache_exists, read_cache, is_safe_cache, get_last_update.
  unfold_monad. unfold_io. rewrite Hc. simpl.
  destruct (files w !! get_cache_filename nf s) as [ [ | [ data | e ] ] | ] eqn:Hfile;
    simpl; rewrite ?Hfile; simpl; try (intros H; simplify_eq; reflexivity).
  - destruct (read_fault w) as [ e | ]; simpl.
    { destruct (is_EOFError e); intros H; simplify_eq; reflexivity. }
    destruct (py_getitem data (VStr (u "timestamp"))) as [ t | e ] eqn:Hts; simpl.
    2:{ destruct (is_EOFError e); intros H; simplify_eq; reflexivity. }
    destruct (py_getitem data (VStr (u "cache"))) as [ c | e ] eqn:Hcache; simpl.
    2:{ destruct (is_EOFError e); intros H; simplify_eq; reflexivity. }
    specialize (Hstored data c eq_refl Hcache).
    destruct (getmtime w (parent_filepath s)); simpl; [ | discriminate ].
    destruct (py_time_gt z t) as [ [ | ] | e ]; simpl;
      intros H; simplify_eq; try reflexivity. exact Hstored.
  - destruct (read_fault w) as [ e' | ]; simpl.
    { destruct (is_EOFError e'); intros H; simplify_eq; reflexivity. }
    destruct (is_EOFError e); intros H; simplify_eq; reflexivity.
Qed.

(** The test [isinstance(args, collections.Hashable)] is true of every
    argument tuple, so the branch that skips the cache is never taken: with
    an unhashable element among the arguments and a dictionary as store, the
    lookup raises [TypeError] and the function is not invoked. *)
Lemma unhashable_arguments_raise (args : list pyval) (s s0 : memo) (w : world) :
  isinstance_Hashable (VTuple args) = true /\
  (hashable (VTuple args) = false ->
   check_cache nf s w = (Return tt, s0, w) ->
   is_dict (cache s0) = true ->
   wrapped_f nf args s w = (Raise TypeError, s0, w)).
Proof.
  split; [ reflexivity | ].
  intros Hh Hcheck Hd. rewrite wrapped_f_after_check, Hcheck.
  destruct (cache s0); try discriminate.
  unfold py_contains. rewrite Hh. reflexivity.
Qed.

(** ** Further properties of the wrapper *)

Lemma wrapped_f_hit (args : list pyval) (s : memo) (w : world)
    (d : list (pyval * pyval)) (v : pyval) :
  cache s = VDict d -> hashable (VTuple args) = true ->
  dict_get (VTuple args) d = Some v ->
  wrapped_f nf args s w = (Return v, s, w).
Proof.
  intros Hc Hh Hv.
  rewrite wrapped_f_after_check, check_cache_loaded by (rewrite Hc; discriminate).
  rewrite Hc. unfold py_contains, py_getitem. rewrite Hh, Hv. reflexivity.
Qed.

(** The store after a call on a loaded instance: as before, or with the
    entry of the arguments added. *)
Lemma wrapped_f_store (args : list pyval) (s : memo) (w : world)
    (d : list (pyval * pyval)) r s1 w1 :
  cache s = VDict d ->
  wrapped_f nf args s w = (r, s1, w1) ->
  cache s1 = VDict d \/
  (hashable (VTuple args) = true /\ dict_get (VTuple args) d = None /\
   exists value, fn_body (func s) args (calls w) = Return value /\
                 calls w1 = S (calls w) /\
                 s1 = set_cache (VDict (dict_set (VTuple args) value d)) s).
Proof.
  intros Hc Hrun.
  rewrite wrapped_f_after_check, check_cache_loaded in Hrun by (rewrite Hc; discriminate).
  rewrite Hc in Hrun. unfold py_contains, py_getitem, py_setitem in Hrun.
  destruct (hashable (VTuple args)) eqn:Hh;
    [ | injection Hrun as <- <- <-; left; exact Hc ].
  destruct (dict_get (VTuple args) d) as [ v | ] eqn:Hget;
    [ injection Hrun as <- <- <-; left; exact Hc | ].
  destruct (fn_body (func s) args (calls w)) as [ value | e ] eqn:Hf;
    [ | injection Hrun as <- <- <-; left; exact Hc ].
  right. split; [ reflexivity | split; [ reflexivity | ] ]. exists value.
  destruct (save_cache nf _ (tick w)) as [[r2 s2] w2] eqn:Hsave.
  apply save_cache_keeps in Hsave as [-> Hcalls].
  destruct r2 as [ [] | e ]; injection Hrun as <- <- <-;
    (split; [ reflexivity | split; [ exact Hcalls | reflexivity ] ]).
Qed.

(** X4. A hit needs nothing from outside: when the loaded store holds the
    arguments, the call returns the stored value in every world, whatever
    happened to the source file or to the cache file since the store was
    loaded; neither the instance nor the world changes. *)
Theorem hit_ignores_the_world (args : list pyval) (s : memo)
    (d : list (pyval * pyval)) (v : pyval) :
  cache s = VDict d -> hashable (VTuple args) = true ->
  dict_get (VTuple args) d = Some v ->
  forall w, wrapped_f nf args s w = (Return v, s, w).
Proof. intros Hc Hh Hv w. exact (wrapped_f_hit args s w d v Hc Hh Hv). Qed.

(** X5. Keys are told apart: a call with arguments [args] does not change
    what the store answers for any other hashable argument tuple, whether
    the call hits, misses, or raises. *)
Theorem other_entries_untouched (args args' : list pyval) (s : memo) (w : world)
    (d : list (pyval * pyval)) r s1 w1 :
  cache s = VDict d ->
  wrapped_f nf args s w = (r, s1, w1) ->
  hashable (VTuple args') = true -> args' <> args ->
  py_contains (cache s1) (VTuple args') = py_contains (cache s) (VTuple args') /\
  py_getitem (cache s1) (VTuple args') = py_getitem (cache s) (VTuple args').
Proof.
  intros Hc Hrun Hh' Hne.
  destruct (wrapped_f_store args s w d r s1 w1 Hc Hrun)
    as [ H1 | (Hh & _ & value & _ & _ & ->) ].
  - rewrite H1, Hc. split; reflexivity.
  - rewrite Hc. cbn [cache set_cache]. unfold py_contains, py_getitem. rewrite Hh'.
    rewrite dict_get_set_other; [ split; reflexivity | exact Hh | exact Hh' | ].
    intros E. injection E as E. apply Hne. symmetry. exact E.
Qed.

(** X6. An entry of the loaded store is never overwritten, and never
    removed: whatever the call does, every hashable key keeps its value. *)
Theorem entries_are_kept (args : list pyval) (s : memo) (w : world)
    (d : list (pyval * pyval)) r s1 w1 (k v : pyval) :
  cache s = VDict d ->
  wrapped_f nf args s w = (r, s1, w1) ->
  hashable k = true -> dict_get k d = Some v ->
  exists d1, cache s1 = VDict d1 /\ dict_get k d1 = Some v.
Proof.
  intros Hc Hrun Hk Hv.
  destruct (wrapped_f_store args s w d r s1 w1 Hc Hrun)
    as [ H1 | (Hh & Hmiss & value & _ & _ & ->) ].
  - exists d. split; assumption.
  - eexists. split; [ reflexivity | ].
    rewrite dict_get_set_other; [ exact Hv | exact Hh | exact Hk | ].
    intros <-. rewrite Hmiss in Hv. discriminate.
Qed.

Lemma save_cache_frame (s : memo) (w : world) r s' w' :
  save_cache nf s w = (r, s', w') ->
  getmtime w' = getmtime w /\ read_fault w' = read_fault w /\
  open_fault w' = open_fault w /\ write_fault w' = write_fault w /\
  forall q, q <> get_cache_filename nf s -> files w' !! q = files w !! q.
Proof.
  rewrite save_cache_outcome. cbn zeta.
  assert (Hkeep : forall r0, (r0, s, w) = (r, s', w') ->
            getmtime w' = getmtime w /\ read_fault w' = read_fault w /\
            open_fault w' = open_fault w /\ write_fault w' = write_fault w /\
            forall q, q <> get_cache_filename nf s -> files w' !! q = files w !! q).
  { intros r0 [= <- <- <-]. repeat split; reflexivity. }
  assert (Hput : forall r0 c,
            (r0, s, set_files (<[get_cache_filename nf s := File c]> (files w)) w)
              = (r, s', w') ->
            getmtime w' = getmtime w /\ read_fault w' = read_fault w /\
            open_fault w' = open_fault w /\ write_fault w' = write_fault w /\
            forall q, q <> get_cache_filename nf s -> files w' !! q = files w !! q).
  { intros r0 c [= <- <- <-]. repeat (split; [ reflexivity | ]).
    intros q Hq. simpl. apply lookup_insert_ne. congruence. }
  destruct (files w !! get_cache_filename nf s) as [ [ | c ] | ];
    try apply Hkeep;
    destruct (open_fault w); try apply Hkeep;
    destruct (getmtime w (parent_filepath s)); try apply Hput;
    destruct (write_fault w) as [ [e residue] | ]; apply Hput.
Qed.

(** X7. The footprint of a call: it leaves the attributes of the binding,
    hence the path of the cache file, as they are; it invokes the function
    at most once; and on disk it changes nothing but its own cache file.  *)
Theorem wrapper_footprint (args : list pyval) (s : memo) (w : world) r s1 w1 :
  wrapped_f nf args s w = (r, s1, w1) ->
  same_binding s s1 /\
  get_cache_filename nf s1 = get_cache_filename nf s /\
  (calls w1 = calls w \/ calls w1 = S (calls w)) /\
  getmtime w1 = getmtime w /\
  forall q, q <> get_cache_filename nf s -> files w1 !! q = files w !! q.
Proof.
  intros Hrun.
  assert (H : same_binding s s1 /\
              (calls w1 = calls w \/ calls w1 = S (calls w)) /\
              getmtime w1 = getmtime w /\
              forall q, q <> get_cache_filename nf s -> files w1 !! q = files w !! q).
  2:{ destruct H as (Hb & Hrest). split; [ exact Hb | ].
      split; [ apply same_binding_filename, Hb | exact Hrest ]. }
  rewrite wrapped_f_after_check in Hrun.
  destruct (check_cache nf s w) as [[rc s0] w0] eqn:Hcheck.
  apply check_cache_reads in Hcheck as [-> Hb].
  destruct rc as [ [] | e ];
    [ | injection Hrun as <- <- <-; repeat split; auto; apply Hb ].
  destruct (py_contains (cache s0) (VTuple args)) as [ [ | ] | e ];
    try (injection Hrun as <- <- <-; repeat split; auto; apply Hb).
  destruct (fn_body (func s0) args (calls w)) as [ value | e ];
    [ | injection Hrun as <- <- <-; repeat split; auto; apply Hb ].
  destruct (py_setitem (cache s0) (VTuple args) value) as [ c' | e ];
    [ | injection Hrun as <- <- <-; repeat split; auto; apply Hb ].
  destruct (save_cache nf (set_cache c' s0) (tick w)) as [[r2 s2] w2] eqn:Hsave.
  pose proof (save_cache_keeps _ _ _ _ _ Hsave) as [-> Hcalls].
  pose proof (save_cache_frame _ _ _ _ _ Hsave) as (Hm & _ & _ & _ & Hfiles).
  assert (Hp : get_cache_filename nf (set_cache c' s0) = get_cache_filename nf s)
    by (etransitivity; [ | apply same_binding_filename, Hb ]; reflexivity).
  rewrite Hp in Hfiles.
  destruct r2 as [ [] | e ]; injection Hrun as <- <- <-;
    (split; [ exact Hb | split; [ right; exact Hcalls | split; [ exact Hm | exact Hfiles ] ] ]).
Qed.

(** X8. Loading never writes: [check_cache] leaves the world as it is in
    every case.  A stale cache file, or one that cannot be unpickled, stays
    on disk; it is replaced only when a later miss is saved. *)
Theorem check_cache_never_writes (s : memo) (w : world) r s' w' :
  check_cache nf s w = (r, s', w') ->
  w' = w /\ get_cache_filename nf s' = get_cache_filename nf s.
Proof.
  intros H. apply check_cache_reads in H as [-> Hb].
  split; [ reflexivity | apply same_binding_filename, Hb ].
Qed.

(** Loading from a file that unpickles to a value with both fields. *)
Lemma check_cache_on_store (s : memo) (w : world) (data t c : pyval) :
  cache s = VNone ->
  files w !! get_cache_filename nf s = Some (File (Pickled data)) ->
  read_fault w = None ->
  py_getitem data (VStr (u "timestamp")) = Return t ->
  py_getitem data (VStr (u "cache")) = Return c ->
  check_cache nf s w =
  match getmtime w (parent_filepath s) with
  | None => (Raise OSError, set_cache c (set_timestamp t s), w)
  | Some m =>
      match py_time_gt m t with
      | Return newer =>
          (Return tt, set_cache (if newer then VDict [] else c) (set_timestamp t s), w)
      | Raise e => (Raise e, set_cache c (set_timestamp t s), w)
      end
  end.
Proof.
  intros Hc Hfile Hread Hts Hstore.
  unfold check_cache, cache_exists, read_cache, is_safe_cache, get_last_update.
  unfold_monad. unfold_io. rewrite Hc. simpl. rewrite !Hfile. simpl.
  rewrite Hread. simpl. rewrite Hts. simpl. rewrite Hstore. simpl.
  destruct (getmtime w (parent_filepath s)) as [ m | ]; simpl; [ | reflexivity ].
  destruct (py_time_gt m t) as [ [ | ] | e ]; reflexivity.
Qed.

(** X9. What [save_cache] writes, [read_cache] reads back: after a save
    that succeeds, an instance of the same binding reads the saved store
    and, as time stamp, the modification time of the source at the save. *)
Theorem save_then_read (s s0 : memo) (w : world) (s' : memo) (w' : world) :
  save_cache nf s w = (Return tt, s', w') ->
  read_fault w = None ->
  same_binding s s0 ->
  exists t, getmtime w (parent_filepath s) = Some t /\
            read_cache nf s0 w' = (Return tt, set_cache (cache s) (set_timestamp (VInt t) s0), w').
Proof.
  intros Hsave Hread Hb. pose proof (same_binding_filename _ _ Hb) as Hp.
  rewrite save_cache_outcome in Hsave. cbn zeta in Hsave.
  destruct (files w !! get_cache_filename nf s) as [ [ | c0 ] | ];
    try discriminate;
    (destruct (open_fault w); [ discriminate | ];
     destruct (getmtime w (parent_filepath s)) as [ t | ]; [ | discriminate ];
     destruct (write_fault w) as [ [e residue] | ]; [ discriminate | ];
     injection Hsave as <- <-; exists t; split; [ reflexivity | ];
     unfold read_cache; unfold_monad; unfold_io; simpl;
     rewrite Hp, lookup_insert_eq, Hread; reflexivity).
Qed.

(** A call that computed its value and returned it: what it left behind. *)
Lemma computed_and_saved (args : list pyval) (s : memo) (w : world)
    (v : pyval) (s1 : memo) (w1 : world) :
  wrapped_f nf args s w = (Return v, s1, w1) ->
  calls w1 = S (calls w) ->
  hashable (VTuple args) = true /\ same_binding s s1 /\
  exists d t,
    cache s1 = VDict (dict_set (VTuple args) v d) /\
    getmtime w (parent_filepath s) = Some t /\
    w1 = set_files (<[get_cache_filename nf s := File (Pickled (store t (cache s1)))]>
                      (files w)) (tick w).
Proof.
  intros Hrun Hcalls. rewrite wrapped_f_after_check in Hrun.
  destruct (check_cache nf s w) as [[rc s0] w0] eqn:Hcheck.
  apply check_cache_reads in Hcheck as [-> Hb].
  pose proof (same_binding_filename _ _ Hb) as Hp.
  destruct rc as [ [] | e ]; [ | discriminate ].
  destruct (py_contains (cache s0) (VTuple args)) as [ [ | ] | e ] eqn:Hin;
    [ injection Hrun as _ <- <-; lia | | discriminate ].
  destruct (fn_body (func s0) args (calls w)) as [ value | e ]; [ | discriminate ].
  destruct (cache s0) as [ | | | | | d ] eqn:Hd; simpl in Hrun; try discriminate;
    try (destruct args; discriminate).
  simpl in Hin.
  destruct (forallb hashable args) eqn:Hh; [ | discriminate ].
  rewrite save_cache_outcome in Hrun. cbn zeta in Hrun.
  change (get_cache_filename nf (set_cache _ s0)) with (get_cache_filename nf s0) in Hrun.
  change (parent_filepath (set_cache _ s0)) with (parent_filepath s0) in Hrun.
  rewrite Hp in Hrun. destruct Hb as (Hf & Hfn & Hpath & Hname & Hn).
  rewrite Hpath in Hrun. simpl in Hrun.
  split; [ exact Hh | ].
  destruct (files w !! get_cache_filename nf s) as [ [ | c0 ] | ];
    try discriminate;
    (destruct (open_fault w); [ discriminate | ];
     destruct (getmtime w (parent_filepath s)) as [ t | ]; [ | discriminate ];
     destruct (write_fault w) as [ [e residue] | ]; [ discriminate | ];
     injection Hrun as <- <- <-;
     split; [ repeat split; assumption | ];
     exists d, t; repeat split; reflexivity).
Qed.

(** X10. A computed value outlives the instance: after a call that
    computed [v] and returned it, a new instance for the same function,
    starting unloaded in the world the call left, answers the same
    arguments with [v] from the cache file, without invoking the function
    and without writing. *)
Theorem cached_across_instances (args : list pyval) (s s0 : memo) (w : world)
    (v : pyval) (s1 : memo) (w1 : world) :
  wrapped_f nf args s w = (Return v, s1, w1) ->
  calls w1 = S (calls w) ->
  read_fault w = None ->
  cache s0 = VNone -> same_binding s s0 ->
  exists s2, wrapped_f nf args s0 w1 = (Return v, s2, w1) /\ cache s2 = cache s1.
Proof.
  intros Hrun Hcalls Hread Hc0 Hb.
  destruct (computed_and_saved args s w v s1 w1 Hrun Hcalls)
    as (Hh & _ & d & t & Hd & Hm & Hw).
  pose proof (same_binding_filename _ _ Hb) as Hp. destruct Hb as (_ & _ & Hpath & _).
  assert (Hcheck : check_cache nf s0 w1
                   = (Return tt, set_cache (cache s1) (set_timestamp (VInt t) s0), w1)).
  { rewrite (check_cache_on_store s0 w1 (store t (cache s1)) (VInt t) (cache s1) Hc0).
    - rewrite Hw. cbn [getmtime set_files tick]. rewrite Hpath, Hm. simpl.
      rewrite Z.ltb_irrefl. reflexivity.
    - rewrite Hp, Hw. simpl. apply lookup_insert_eq.
    - rewrite Hw. exact Hread.
    - apply getitem_store_timestamp.
    - apply getitem_store_cache. }
  eexists. rewrite wrapped_f_after_check, Hcheck. cbn [cache set_cache].
  rewrite Hd. unfold py_contains, py_getitem.
  rewrite Hh, dict_get_set_same by exact Hh. split; reflexivity.
Qed.

Lemma check_cache_fresh (s : memo) (w : world) (s0 : memo) (w0 : world) :
  cache s = VNone ->
  check_cache nf s w = (Return tt, s0, w0) ->
  cache s0 = VDict [] \/ in_sync nf s0 w.
Proof.
  intros Hc. unfold check_cache, cache_exists, read_cache, is_safe_cache, get_last_update.
  unfold_monad. unfold_io. rewrite Hc. simpl.
  destruct (files w !! get_cache_filename nf s) as [ [ | [ data | e ] ] | ] eqn:Hfile;
    simpl; rewrite ?Hfile; simpl; try (intros H; simplify_eq; left; reflexivity).
  - destruct (read_fault w) as [ e | ]; simpl.
    { destruct (is_EOFError e); intros H; simplify_eq; left; reflexivity. }
    destruct (py_getitem data (VStr (u "timestamp"))) as [ t | e ] eqn:Hts; simpl.
    2:{ destruct (is_EOFError e); intros H; simplify_eq; left; reflexivity. }
    destruct (py_getitem data (VStr (u "cache"))) as [ c | e ] eqn:Hcache; simpl.
    2:{ destruct (is_EOFError e); intros H; simplify_eq; left; reflexivity. }
    destruct (getmtime w (parent_filepath s)); simpl; [ | discriminate ].
    destruct (py_time_gt z t) as [ [ | ] | e ]; simpl;
      intros H; simplify_eq; [ left; reflexivity | right ].
    unfold in_sync.
    change (get_cache_filename nf (set_cache c (set_timestamp t s)))
      with (get_cache_filename nf s).
    rewrite Hfile. exact Hcache.
  - destruct (read_fault w) as [ e' | ]; simpl.
    { destruct (is_EOFError e'); intros H; simplify_eq; left; reflexivity. }
    destruct (is_EOFError e); intros H; simplify_eq; left; reflexivity.
Qed.

(** X11. Memory and disk agree after every call that returns: starting
    from an unloaded instance, or from one whose store is the one in the
    cache file, a call that returns leaves the cache file holding exactly
    the in-memory store. *)
Theorem store_stays_in_sync (args : list pyval) (s : memo) (w : world)
    (v : pyval) (s1 : memo) (w1 : world) :
  wrapped_f nf args s w = (Return v, s1, w1) ->
  cache s = VNone \/ in_sync nf s w ->
  in_sync nf s1 w1.
Proof.
  intros Hrun Hstart. rewrite wrapped_f_after_check in Hrun.
  destruct (check_cache nf s w) as [[rc s0] w0] eqn:Hcheck.
  pose proof (check_cache_reads _ _ _ _ _ Hcheck) as [-> Hb].
  destruct rc as [ [] | e ]; [ | discriminate ].
  assert (Hloaded : cache s0 = VDict [] \/ in_sync nf s0 w).
  { destruct (cache s) eqn:Hc;
      try (rewrite check_cache_loaded in Hcheck by (rewrite Hc; discriminate);
           injection Hcheck as <-; right;
           destruct Hstart as [ E | Hs ]; [ congruence | exact Hs ]).
    exact (check_cache_fresh s w s0 w Hc Hcheck). }
  destruct (py_contains (cache s0) (VTuple args)) as [ [ | ] | e ] eqn:Hin;
    [ | | discriminate ].
  - injection Hrun as _ <- <-. destruct Hloaded as [ E | Hs ]; [ | exact Hs ].
    rewrite E in Hin. simpl in Hin. destruct (forallb hashable args); discriminate.
  - destruct (fn_body (func s0) args (calls w)) as [ value | e ]; [ | discriminate ].
    destruct (py_setitem (cache s0) (VTuple args) value) as [ c' | e ];
      [ | discriminate ].
    rewrite save_cache_outcome in Hrun. cbn zeta in Hrun.
    change (get_cache_filename nf (set_cache c' s0)) with (get_cache_filename nf s0) in Hrun.
    simpl in Hrun.
    destruct (files w !! get_cache_filename nf s0) as [ [ | c0 ] | ];
      try discriminate;
      (destruct (open_fault w); [ discriminate | ];
       destruct (getmtime w (parent_filepath s0)) as [ t | ]; [ | discriminate ];
       destruct (write_fault w) as [ [e residue] | ]; [ discriminate | ];
       injection Hrun as _ <- <-; unfold in_sync;
       change (get_cache_filename nf (set_cache c' s0)) with (get_cache_filename nf s0);
       simpl; rewrite lookup_insert_eq; reflexivity).
Qed.

(** X12. When the modification time of the source cannot be read while
    loading (the source file is gone), the call raises [OSError]; but the
    store read from the file is kept in memory, unvalidated, and later calls
    answer from it, in any world. *)
Theorem unvalidated_store_is_served (s : memo) (w : world) (data t : pyval)
    (d : list (pyval * pyval)) :
  cache s = VNone ->
  files w !! get_cache_filename nf s = Some (File (Pickled data)) ->
  read_fault w = None ->
  py_getitem data (VStr (u "timestamp")) = Return t ->
  py_getitem data (VStr (u "cache")) = Return (VDict d) ->
  getmtime w (parent_filepath s) = None ->
  let s' := set_cache (VDict d) (set_timestamp t s) in
  (forall args, wrapped_f nf args s w = (Raise OSError, s', w)) /\
  (forall args v w', hashable (VTuple args) = true ->
     dict_get (VTuple args) d = Some v ->
     wrapped_f nf args s' w' = (Return v, s', w')).
Proof.
  intros Hc Hfile Hread Hts Hstore Hm s'. split.
  - intros args. rewrite wrapped_f_after_check.
    rewrite (check_cache_on_store s w data t (VDict d) Hc Hfile Hread Hts Hstore), Hm.
    reflexivity.
  - intros args v w' Hh Hv. exact (wrapped_f_hit args s' w' d v eq_refl Hh Hv).
Qed.

(** X13. When a value was computed but saving it raised, the entry is in
    memory all the same: the next call with the same arguments returns the
    value without invoking the function, and without trying to save. *)
Theorem unsaved_entry_is_served (args : list pyval) (s : memo) (w : world)
    (d : list (pyval * pyval)) (e : exn) (s1 : memo) (w1 : world) (value : pyval) :
  cache s = VDict d ->
  wrapped_f nf args s w = (Raise e, s1, w1) ->
  calls w1 = S (calls w) ->
  fn_body (func s) args (calls w) = Return value ->
  forall w', wrapped_f nf args s1 w' = (Return value, s1, w').
Proof.
  intros Hc Hrun Hcalls Hf w'.
  rewrite wrapped_f_after_check, check_cache_loaded in Hrun by (rewrite Hc; discriminate).
  rewrite Hc, Hf in Hrun. unfold py_contains, py_getitem, py_setitem in Hrun.
  destruct (hashable (VTuple args)) eqn:Hh; [ | injection Hrun as _ _ <-; lia ].
  destruct (dict_get (VTuple args) d); [ discriminate | ].
  destruct (save_cache nf _ (tick w)) as [[r2 s2] w2] eqn:Hsave.
  apply save_cache_keeps in Hsave as [-> _].
  destruct r2 as [ [] | e2 ]; [ discriminate | ]. injection Hrun as _ <- _.
  eapply wrapped_f_hit; [ reflexivity | exact Hh | apply dict_get_set_same, Hh ].
Qed.

Lemma check_cache_on_broken (s : memo) (w : world) (e : exn) :
  cache s = VNone ->
  files w !! get_cache_filename nf s = Some (File (Broken e)) ->
  read_fault w = None ->
  check_cache nf s w =
    (if is_EOFError e then (Return tt, set_cache (VDict []) s, w) else (Raise e, s, w)).
Proof.
  intros Hc Hfile Hread. unfold check_cache, cache_exists, read_cache.
  unfold_monad. unfold_io. rewrite Hc. simpl. rewrite !Hfile. simpl.
  rewrite Hread. simpl. destruct (is_EOFError e); reflexivity.
Qed.

(** X14. [save_cache] opens the cache file, which empties it, before it
    reads the modification time of the source: when that time cannot be
    read, the save raises [OSError] and the store that was on disk is lost;
    an instance that loads afterwards starts from an empty store. *)
Theorem failed_save_wipes_the_file (s : memo) (w : world) :
  files w !! get_cache_filename nf s <> Some Dir ->
  open_fault w = None ->
  getmtime w (parent_filepath s) = None ->
  exists w',
    save_cache nf s w = (Raise OSError, s, w') /\
    files w' !! get_cache_filename nf s = Some (File empty_file) /\
    (read_fault w = None ->
     forall s0, cache s0 = VNone -> same_binding s s0 ->
       check_cache nf s0 w' = (Return tt, set_cache (VDict []) s0, w')).
Proof.
  intros Hdir Hopen Hm. eexists. rewrite save_cache_outcome. cbn zeta.
  rewrite Hopen, Hm.
  split; [ destruct (files w !! get_cache_filename nf s) as [ [ | c ] | ];
           [ contradiction | reflexivity | reflexivity ] | ].
  split; [ simpl; apply lookup_insert_eq | ].
  intros Hread s0 Hc0 Hb.
  rewrite (check_cache_on_broken s0 _ EOFError Hc0); [ reflexivity | | exact Hread ].
  rewrite (same_binding_filename _ _ Hb). simpl. apply lookup_insert_eq.
Qed.

Lemma read_cache_failure (s : memo) (w : world) (e : exn) (s' : memo) (w' : world) :
  read_cache nf s w = (Raise e, s', w') ->
  w' = w /\ cache s' = cache s /\ read_cache nf s' w = (Raise e, s', w).
Proof.
  unfold read_cache. unfold_monad. unfold_io. simpl.
  destruct (files w !! get_cache_filename nf s) as [ [ | c ] | ] eqn:Hfile; simpl.
  1, 3: intros [= <- <- <-]; rewrite Hfile; repeat split; reflexivity.
  destruct (read_fault w) as [ e0 | ] eqn:Hread; simpl.
  { intros [= <- <- <-]. rewrite Hfile. simpl. rewrite ?Hread. repeat split; reflexivity. }
  destruct (pickle_loads c) as [ data | e0 ] eqn:Hload; simpl.
  2:{ intros [= <- <- <-]. rewrite Hfile. simpl. rewrite ?Hread. simpl. rewrite ?Hload.
      repeat split; reflexivity. }
  destruct (py_getitem data (VStr (u "timestamp"))) as [ t | e0 ] eqn:Hts; simpl.
  2:{ intros [= <- <- <-]. rewrite Hfile. simpl. rewrite ?Hread. simpl. rewrite ?Hload.
      simpl. rewrite ?Hts. repeat split; reflexivity. }
  destruct (py_getitem data (VStr (u "cache"))) as [ c0 | e0 ] eqn:Hcache; simpl;
    [ discriminate | ].
  intros [= <- <- <-].
  change (get_cache_filename nf (set_timestamp t s)) with (get_cache_filename nf s).
  rewrite Hfile. simpl. rewrite ?Hread. simpl. rewrite ?Hload. simpl. rewrite ?Hts. simpl.
  rewrite ?Hcache. repeat split; reflexivity.
Qed.

(** X15. A cache file that cannot be read as a store is never repaired:
    when [read_cache] raises anything but [EOFError] (a malformed stream, a
    value without the two fields, a file that cannot be opened), the call
    raises it before the function is invoked, the instance stays unloaded,
    and so every later call fails in the same way while the file is there. *)
Theorem unreadable_store_keeps_failing (s : memo) (w : world) (c : content)
    (e : exn) (s' : memo) (w' : world) :
  cache s = VNone ->
  files w !! get_cache_filename nf s = Some (File c) ->
  read_cache nf s w = (Raise e, s', w') ->
  is_EOFError e = false ->
  cache s' = VNone /\
  forall args,
    wrapped_f nf args s w = (Raise e, s', w) /\
    wrapped_f nf args s' w = (Raise e, s', w).
Proof.
  intros Hc Hfile Hread He.
  destruct (read_cache_failure s w e s' w' Hread) as (-> & Hc' & Hagain).
  assert (Hcheck : forall s0, cache s0 = VNone ->
            get_cache_filename nf s0 = get_cache_filename nf s ->
            read_cache nf s0 w = (Raise e, s', w) ->
            check_cache nf s0 w = (Raise e, s', w)).
  { intros s0 Hc0 Hp0 Hr0. unfold check_cache, cache_exists.
    unfold bind, ret, gets, modify, try_except_EOFError, os_path_isfile.
    rewrite Hc0, Hp0, Hfile, Hr0, He. reflexivity. }
  split; [ congruence | ]. intros args. rewrite !wrapped_f_after_check.
  rewrite (Hcheck s Hc eq_refl Hread).
  rewrite (Hcheck s'); [ split; reflexivity | congruence | | exact Hagain ].
  revert Hread. unfold read_cache. unfold_monad. unfold_io. simpl. intros Hread.
  repeat (case_match; simplify_eq); reflexivity.
Qed.

(** X16. After the source file was modified, the first value computed
    replaces the whole store: the earlier entries are dropped from memory
    when the stale store is loaded, and from the cache file when the new
    entry is saved, with the new modification time as time stamp. *)
Theorem stale_file_is_replaced (args : list pyval) (s : memo) (w : world)
    (data c value : pyval) (saved mtime : Z) :
  cache s = VNone ->
  files w !! get_cache_filename nf s = Some (File (Pickled data)) ->
  read_fault w = None ->
  py_getitem data (VStr (u "timestamp")) = Return (VInt saved) ->
  py_getitem data (VStr (u "cache")) = Return c ->
  getmtime w (parent_filepath s) = Some mtime ->
  (saved < mtime)%Z ->
  hashable (VTuple args) = true ->
  fn_body (func s) args (calls w) = Return value ->
  open_fault w = None -> write_fault w = None ->
  exists s1 w1,
    wrapped_f nf args s w = (Return value, s1, w1) /\
    cache s1 = VDict [(VTuple args, value)] /\
    files w1 !! get_cache_filename nf s
      = Some (File (Pickled (store mtime (VDict [(VTuple args, value)])))).
Proof.
  intros Hc Hfile Hread Hts Hstore Hm Hlt Hh Hf Hopen Hwrite.
  assert (Hcheck : check_cache nf s w
                   = (Return tt, set_cache (VDict []) (set_timestamp (VInt saved) s), w)).
  { rewrite (check_cache_on_store s w data (VInt saved) c Hc Hfile Hread Hts Hstore), Hm.
    simpl. replace (saved <? mtime)%Z with true by (symmetry; apply Z.ltb_lt, Hlt).
    reflexivity. }
  do 2 eexists. rewrite wrapped_f_after_check, Hcheck.
  cbn [cache set_cache func set_timestamp]. unfold py_contains, py_setitem.
  rewrite Hh, Hf. cbn [dict_get dict_set]. rewrite save_cache_outcome. cbn zeta.
  change (get_cache_filename nf (set_cache _ _)) with (get_cache_filename nf s).
  simpl. rewrite Hfile, Hopen, Hm, Hwrite.
  split; [ reflexivity | split; [ reflexivity | ] ].
  simpl. apply lookup_insert_eq.
Qed.

End MemorizeProofs.

(** ** The properties on concrete runs *)

(** C2. [first([5])] called through the wrapper, with the list as only
    argument: the tuple of arguments passes the [isinstance] test, the
    lookup in the store raises [TypeError], and [first] is not invoked;
    called directly, [first] returns 5. *)
Theorem unhashable_call_fails :
  isinstance_Hashable (VTuple [VList [VInt 5]]) = true /\
  hashable (VTuple [VList [VInt 5]]) = false /\
  wrapped_f nfkd_ascii [VList [VInt 5]] (memo_of first) world0
    = (Raise TypeError, set_cache (VDict []) (memo_of first), world0) /\
  fn_body first [VList [VInt 5]] (calls world0) = Return (VInt 5).
Proof. repeat split; vm_compute; reflexivity. Qed.

(** C3, as stated, fails on a malformed cache file: the error of
    unpickling leaves [check_cache], and the instance stays unloaded. *)
Lemma malformed_file_propagates :
  check_cache nfkd_ascii (memo_of square) malformed_world
    = (Raise UnpicklingError, memo_of square, malformed_world).
Proof. vm_compute. reflexivity. Qed.

(** C5, as stated, fails on a file name that starts with a hyphen: the
    hyphen stays in the slug. *)
Lemma leading_hyphen_is_kept :
  get_cache_filename nfkd_ascii (memo_of dash_f) = u "/tmp/c/-a_f.cache" /\
  cache_path_spec nfkd_ascii (memo_of dash_f) = u "/tmp/c/a_f.cache" /\
  get_cache_filename nfkd_ascii (memo_of dash_f) <> cache_path_spec nfkd_ascii (memo_of dash_f).
Proof.
  split; [ vm_compute; reflexivity | ].
  split; [ vm_compute; reflexivity | ].
  vm_compute. discriminate.
Qed.

(** C10, as stated, fails on a malformed cache file: after the call of
    [check_cache], which raises, the in-memory cache is still [None]. *)
Lemma malformed_file_leaves_none :
  cache (snd (fst (check_cache nfkd_ascii (memo_of square) malformed_world))) = VNone.
Proof. vm_compute. reflexivity. Qed.

(** A store whose [cache] field is not a dictionary is loaded as it is. *)
Example stored_none_is_loaded :
  check_cache nfkd_ascii (memo_of square) (world_with (Pickled (store 100 VNone)))
    = (Return tt, set_timestamp (VInt 100) (memo_of square),
       world_with (Pickled (store 100 VNone))).
Proof. vm_compute. reflexivity. Qed.

(** The instance the decorator builds for [square]. *)
Example decorate_square :
  decorate abspath_abs cache_dir square world0 = Return (memo_of square).
Proof. vm_compute. reflexivity. Qed.

(** The scenario of the specification: [square(4)] computes 16 and writes
    the cache file; [square(5)] adds its entry. *)
Example square_scenario :
  wrapped_f nfkd_ascii [VInt 4] (memo_of square) world0 = (Return (VInt 16), memo_16, world_16) /\
  wrapped_f nfkd_ascii [VInt 4] memo_16 world_16 = (Return (VInt 16), memo_16, world_16) /\
  let '(r, s, w) := wrapped_f nfkd_ascii [VInt 5] memo_16 world_16 in
  r = Return (VInt 25) /\ calls w = 2%nat /\
  files w !! square_cache =
    Some (File (Pickled (store 100
      (VDict [(VTuple [VInt 4], VInt 16); (VTuple [VInt 5], VInt 25)])))).
Proof. repeat split; vm_compute; reflexivity. Qed.

(** A cache file that cannot be opened for writing: the error reaches the
    caller of the wrapper. *)
Example write_failure_surfaces :
  fst (fst (wrapped_f nfkd_ascii [VInt 4] (memo_of square) readonly_world)) = Raise OSError.
Proof. vm_compute. reflexivity. Qed.

(** An impure function: the second call returns what the first one
    computed. *)
Example counter_is_frozen :
  let '(r1, s1, w1) := wrapped_f nfkd_ascii [] (memo_of counter) world0 in
  let '(r2, s2, w2) := wrapped_f nfkd_ascii [] s1 w1 in
  r1 = Return (VInt 0) /\ r2 = Return (VInt 0) /\ calls w2 = 1%nat.
Proof. repeat split; vm_compute; reflexivity. Qed.

(** ** The theorems at concrete inputs *)

Lemma second_call_is_a_hit_witness :
  hashable (VTuple [VInt 4]) = true /\
  wrapped_f nfkd_ascii [VInt 4] (memo_of square) world0 = (Return (VInt 16), memo_16, world_16) /\
  wrapped_f nfkd_ascii [VInt 4] memo_16 world_16 = (Return (VInt 16), memo_16, world_16) /\
  calls world_16 = 1%nat.
Proof.
  assert (H1 : hashable (VTuple [VInt 4]) = true) by reflexivity.
  assert (H2 : wrapped_f nfkd_ascii [VInt 4] (memo_of square) world0
               = (Return (VInt 16), memo_16, world_16)) by (vm_compute; reflexivity).
  split; [ exact H1 | split; [ exact H2 | ] ].
  pose proof (second_call_is_a_hit nfkd_ascii [VInt 4] (memo_of square) world0
                (VInt 16) memo_16 world_16 H1 H2) as (Hagain & _ & Hcold).
  split; [ exact Hagain | ]. apply Hcold; vm_compute; reflexivity.
Defined.

Lemma eof_file_is_a_cold_cache_witness :
  cache (memo_of square) = VNone /\
  files empty_world !! get_cache_filename nfkd_ascii (memo_of square)
    = Some (File (Broken EOFError)) /\
  read_fault empty_world = None /\
  check_cache nfkd_ascii (memo_of square) empty_world
    = (Return tt, set_cache (VDict []) (memo_of square), empty_world).
Proof.
  assert (H1 : cache (memo_of square) = VNone) by reflexivity.
  assert (H2 : files empty_world !! get_cache_filename nfkd_ascii (memo_of square)
               = Some (File (Broken EOFError))) by (vm_compute; reflexivity).
  assert (H3 : read_fault empty_world = None) by reflexivity.
  split; [ exact H1 | split; [ exact H2 | split; [ exact H3 | ] ] ].
  exact (proj1 (eof_file_is_a_cold_cache nfkd_ascii (memo_of square) empty_world
                  EOFError H1 H2 H3)).
Defined.

Lemma stale_store_is_discarded_witness :
  cache (memo_of square) = VNone /\
  files stale_world !! get_cache_filename nfkd_ascii (memo_of square)
    = Some (File (Pickled (store 99 (VDict [(VTuple [VInt 4], VInt 17)])))) /\
  read_fault stale_world = None /\
  py_getitem (store 99 (VDict [(VTuple [VInt 4], VInt 17)])) (VStr (u "timestamp"))
    = Return (VInt 99) /\
  py_getitem (store 99 (VDict [(VTuple [VInt 4], VInt 17)])) (VStr (u "cache"))
    = Return (VDict [(VTuple [VInt 4], VInt 17)]) /\
  getmtime stale_world (parent_filepath (memo_of square)) = Some 100%Z /\
  (99 < 100)%Z /\
  hashable (VTuple [VInt 4]) = true /\
  check_cache nfkd_ascii (memo_of square) stale_world
    = (Return tt, set_cache (VDict []) (set_timestamp (VInt 99) (memo_of square)),
       stale_world) /\
  calls (snd (wrapped_f nfkd_ascii [VInt 4] (memo_of square) stale_world)) = 1%nat.
Proof.
  assert (H1 : cache (memo_of square) = VNone) by reflexivity.
  assert (H2 : files stale_world !! get_cache_filename nfkd_ascii (memo_of square)
               = Some (File (Pickled (store 99 (VDict [(VTuple [VInt 4], VInt 17)])))))
    by (vm_compute; reflexivity).
  assert (H3 : read_fault stale_world = None) by reflexivity.
  assert (H4 : py_getitem (store 99 (VDict [(VTuple [VInt 4], VInt 17)]))
                 (VStr (u "timestamp")) = Return (VInt 99)) by (vm_compute; reflexivity).
  assert (H5 : py_getitem (store 99 (VDict [(VTuple [VInt 4], VInt 17)]))
                 (VStr (u "cache")) = Return (VDict [(VTuple [VInt 4], VInt 17)]))
    by (vm_compute; reflexivity).
  assert (H6 : getmtime stale_world (parent_filepath (memo_of square)) = Some 100%Z)
    by reflexivity.
  assert (H7 : (99 < 100)%Z) by lia.
  assert (H8 : hashable (VTuple [VInt 4]) = true) by reflexivity.
  pose proof (stale_store_is_discarded nfkd_ascii (memo_of square) stale_world
                _ _ 99%Z 100%Z H1 H2 H3 H4 H5 H6) as [Hcheck Hcall].
  repeat (split; [ assumption | ]).
  exact (Hcall H7 [VInt 4] H8).
Defined.

Lemma cache_filename_shape_witness :
  parent_filename (memo_of square) = u "m" ++ u ".py" /\
  is_substring (u ".py") (u "m") = false /\
  get_cache_filename nfkd_ascii (memo_of square) = u "/tmp/c/m_square.cache".
Proof.
  assert (H1 : parent_filename (memo_of square) = u "m" ++ u ".py") by reflexivity.
  assert (H2 : is_substring (u ".py") (u "m") = false) by reflexivity.
  split; [ exact H1 | split; [ exact H2 | ] ].
  exact (proj1 (cache_filename_shape nfkd_ascii (memo_of square) (u "m") H1 H2)).
Defined.

Lemma miss_persists_or_raises_witness :
  check_cache nfkd_ascii (memo_of square) world0
    = (Return tt, set_cache (VDict []) (memo_of square), world0) /\
  cache (set_cache (VDict []) (memo_of square)) = VDict [] /\
  hashable (VTuple [VInt 4]) = true /\
  dict_get (VTuple [VInt 4]) [] = None /\
  fn_body (func (memo_of square)) [VInt 4] (calls world0) = Return (VInt 16) /\
  wrapped_f nfkd_ascii [VInt 4] (memo_of square) world0
    = (Return (VInt 16), memo_16, world_16).
Proof.
  assert (H1 : check_cache nfkd_ascii (memo_of square) world0
               = (Return tt, set_cache (VDict []) (memo_of square), world0))
    by (vm_compute; reflexivity).
  assert (H2 : cache (set_cache (VDict []) (memo_of square)) = VDict []) by reflexivity.
  assert (H3 : hashable (VTuple [VInt 4]) = true) by reflexivity.
  assert (H4 : dict_get (VTuple [VInt 4]) [] = None) by reflexivity.
  assert (H5 : fn_body (func (memo_of square)) [VInt 4] (calls world0) = Return (VInt 16))
    by reflexivity.
  repeat (split; [ assumption | ]).
  pose proof (miss_persists_or_raises nfkd_ascii [VInt 4] (memo_of square) _ world0
                [] (VInt 16) H1 H2 H3 H4 H5) as H.
  rewrite H. vm_compute. reflexivity.
Defined.

Lemma check_cache_idempotent_witness :
  cache memo_16 <> VNone /\
  check_cache nfkd_ascii memo_16 world_16 = (Return tt, memo_16, world_16).
Proof.
  assert (H1 : cache memo_16 <> VNone) by (simpl; discriminate).
  split; [ exact H1 | ].
  exact (proj1 (check_cache_idempotent nfkd_ascii memo_16 world_16 H1)).
Defined.

Lemma func_error_propagates_witness :
  wrapped_f nfkd_ascii [VInt 1] (memo_of failing) world0
    = (Raise (OtherError 7), set_cache (VDict []) (memo_of failing), tick world0) /\
  calls (tick world0) <> calls world0 /\
  fn_body (func (memo_of failing)) [VInt 1] (calls world0) = Raise (OtherError 7) /\
  files (tick world0) = files world0 /\
  check_cache nfkd_ascii (memo_of failing) world0
    = (Return tt, set_cache (VDict []) (memo_of failing), world0).
Proof.
  assert (H1 : wrapped_f nfkd_ascii [VInt 1] (memo_of failing) world0
               = (Raise (OtherError 7), set_cache (VDict []) (memo_of failing), tick world0))
    by (vm_compute; reflexivity).
  assert (H2 : calls (tick world0) <> calls world0) by (simpl; lia).
  assert (H3 : fn_body (func (memo_of failing)) [VInt 1] (calls world0)
               = Raise (OtherError 7)) by reflexivity.
  repeat (split; [ assumption | ]).
  pose proof (func_error_propagates nfkd_ascii [VInt 1] (memo_of failing) world0
                _ _ _ (OtherError 7) H1 H2 H3) as (_ & Hfiles & _ & Hcheck & _).
  split; [ exact Hfiles | exact Hcheck ].
Defined.

Lemma keyword_call_raises_witness :
  [(u "x", VInt 4)] <> [] /\
  call_wrapped_f nfkd_ascii [] [(u "x", VInt 4)] (memo_of square) world0
    = (Raise TypeError, memo_of square, world0).
Proof.
  assert (H1 : [(u "x", VInt 4)] <> []) by discriminate.
  split; [ exact H1 | ].
  exact (keyword_call_raises nfkd_ascii [] [(u "x", VInt 4)] (memo_of square) world0 H1).
Defined.

Lemma check_cache_leaves_a_dict_witness :
  check_cache nfkd_ascii (memo_of square) (world_with (Pickled (store 100 entries_16)))
    = (Return tt, set_cache entries_16 (set_timestamp (VInt 100) (memo_of square)),
       world_with (Pickled (store 100 entries_16))) /\
  (cache (memo_of square) = VNone \/ is_dict (cache (memo_of square)) = true) /\
  (forall data c,
     files (world_with (Pickled (store 100 entries_16)))
       !! get_cache_filename nfkd_ascii (memo_of square) = Some (File (Pickled data)) ->
     py_getitem data (VStr (u "cache")) = Return c -> is_dict c = true) /\
  is_dict (cache (set_cache entries_16 (set_timestamp (VInt 100) (memo_of square)))) = true.
Proof.
  assert (H1 : check_cache nfkd_ascii (memo_of square)
                 (world_with (Pickled (store 100 entries_16)))
               = (Return tt, set_cache entries_16 (set_timestamp (VInt 100) (memo_of square)),
                  world_with (Pickled (store 100 entries_16))))
    by (vm_compute; reflexivity).
  assert (H2 : cache (memo_of square) = VNone \/ is_dict (cache (memo_of square)) = true)
    by (left; reflexivity).
  assert (H3 : forall data c,
     files (world_with (Pickled (store 100 entries_16)))
       !! get_cache_filename nfkd_ascii (memo_of square) = Some (File (Pickled data)) ->
     py_getitem data (VStr (u "cache")) = Return c -> is_dict c = true).
  { intros data c Hfile Hget. vm_compute in Hfile. injection Hfile as <-.
    vm_compute in Hget. injection Hget as <-. reflexivity. }
  repeat (split; [ assumption | ]).
  exact (check_cache_leaves_a_dict nfkd_ascii _ _ _ _ H1 H2 H3).
Defined.

(** ** The further properties at concrete inputs *)

Lemma slugify_idempotent_witness :
  (forall s, Forall (fun c => (c <? 128) = true) s -> nfkd_ascii s = s) /\
  _slugify nfkd_ascii (_slugify nfkd_ascii (u "  Hello,  World -- x_Y!  "))
    = _slugify nfkd_ascii (u "  Hello,  World -- x_Y!  ").
Proof.
  assert (H1 : forall s, Forall (fun c => (c <? 128) = true) s -> nfkd_ascii s = s)
    by (intros s _; reflexivity).
  split; [ exact H1 | ].
  exact (slugify_idempotent nfkd_ascii H1 (u "  Hello,  World -- x_Y!  ")).
Defined.

Lemma names_differing_in_case_collide_witness :
  (forall s, Forall (fun c => (c <? 128) = true) s -> nfkd_ascii s = s) /\
  folder (memo_of square) = folder (memo_of square_upper) /\
  parent_filename (memo_of square) = parent_filename (memo_of square_upper) /\
  Forall (fun c => (c <? 128) = true) (name (memo_of square)) /\
  Forall (fun c => (c <? 128) = true) (name (memo_of square_upper)) /\
  lower (name (memo_of square)) = lower (name (memo_of square_upper)) /\
  get_cache_filename nfkd_ascii (memo_of square)
    = get_cache_filename nfkd_ascii (memo_of square_upper).
Proof.
  assert (H0 : forall s, Forall (fun c => (c <? 128) = true) s -> nfkd_ascii s = s)
    by (intros s _; reflexivity).
  assert (H1 : folder (memo_of square) = folder (memo_of square_upper)) by reflexivity.
  assert (H2 : parent_filename (memo_of square) = parent_filename (memo_of square_upper))
    by reflexivity.
  assert (H3 : Forall (fun c => (c <? 128) = true) (name (memo_of square)))
    by (repeat constructor).
  assert (H4 : Forall (fun c => (c <? 128) = true) (name (memo_of square_upper)))
    by (repeat constructor).
  assert (H5 : lower (name (memo_of square)) = lower (name (memo_of square_upper)))
    by reflexivity.
  repeat (split; [ assumption | ]).
  exact (names_differing_in_case_collide nfkd_ascii H0 _ _ H1 H2 H3 H4 H5).
Defined.

Lemma hit_ignores_the_world_witness :
  cache memo_16 = VDict [(VTuple [VInt 4], VInt 16)] /\
  hashable (VTuple [VInt 4]) = true /\
  dict_get (VTuple [VInt 4]) [(VTuple [VInt 4], VInt 16)] = Some (VInt 16) /\
  wrapped_f nfkd_ascii [VInt 4] memo_16 orphan_world = (Return (VInt 16), memo_16, orphan_world).
Proof.
  assert (H1 : cache memo_16 = VDict [(VTuple [VInt 4], VInt 16)]) by reflexivity.
  assert (H2 : hashable (VTuple [VInt 4]) = true) by reflexivity.
  assert (H3 : dict_get (VTuple [VInt 4]) [(VTuple [VInt 4], VInt 16)] = Some (VInt 16))
    by reflexivity.
  repeat (split; [ assumption | ]).
  exact (hit_ignores_the_world nfkd_ascii [VInt 4] memo_16 _ (VInt 16) H1 H2 H3 orphan_world).
Defined.

Lemma other_entries_untouched_witness :
  cache memo_16 = VDict [(VTuple [VInt 4], VInt 16)] /\
  hashable (VTuple [VInt 4]) = true /\
  [VInt 4] <> [VInt 5] /\
  let '(_, s1, _) := wrapped_f nfkd_ascii [VInt 5] memo_16 world_16 in
  py_getitem (cache s1) (VTuple [VInt 4]) = py_getitem (cache memo_16) (VTuple [VInt 4]).
Proof.
  assert (H1 : cache memo_16 = VDict [(VTuple [VInt 4], VInt 16)]) by reflexivity.
  assert (H2 : hashable (VTuple [VInt 4]) = true) by reflexivity.
  assert (H3 : [VInt 4] <> [VInt 5]) by discriminate.
  repeat (split; [ assumption | ]).
  destruct (wrapped_f nfkd_ascii [VInt 5] memo_16 world_16) as [[r s1] w1] eqn:Hrun.
  exact (proj2 (other_entries_untouched nfkd_ascii [VInt 5] [VInt 4] memo_16 world_16
                  _ r s1 w1 H1 Hrun H2 H3)).
Defined.

Lemma entries_are_kept_witness :
  cache memo_16 = VDict [(VTuple [VInt 4], VInt 16)] /\
  hashable (VTuple [VInt 4]) = true /\
  dict_get (VTuple [VInt 4]) [(VTuple [VInt 4], VInt 16)] = Some (VInt 16) /\
  let '(_, s1, _) := wrapped_f nfkd_ascii [VInt 5] memo_16 world_16 in
  exists d1, cache s1 = VDict d1 /\ dict_get (VTuple [VInt 4]) d1 = Some (VInt 16).
Proof.
  assert (H1 : cache memo_16 = VDict [(VTuple [VInt 4], VInt 16)]) by reflexivity.
  assert (H2 : hashable (VTuple [VInt 4]) = true) by reflexivity.
  assert (H3 : dict_get (VTuple [VInt 4]) [(VTuple [VInt 4], VInt 16)] = Some (VInt 16))
    by reflexivity.
  repeat (split; [ assumption | ]).
  destruct (wrapped_f nfkd_ascii [VInt 5] memo_16 world_16) as [[r s1] w1] eqn:Hrun.
  exact (entries_are_kept nfkd_ascii [VInt 5] memo_16 world_16 _ r s1 w1
           (VTuple [VInt 4]) (VInt 16) H1 Hrun H2 H3).
Defined.

Lemma wrapper_footprint_witness :
  wrapped_f nfkd_ascii [VInt 4] (memo_of square) world0 = (Return (VInt 16), memo_16, world_16) /\
  get_cache_filename nfkd_ascii memo_16 = get_cache_filename nfkd_ascii (memo_of square) /\
  files world_16 !! cache_dir = files world0 !! cache_dir.
Proof.
  assert (H1 : wrapped_f nfkd_ascii [VInt 4] (memo_of square) world0
               = (Return (VInt 16), memo_16, world_16)) by (vm_compute; reflexivity).
  split; [ exact H1 | ].
  destruct (wrapper_footprint nfkd_ascii _ _ _ _ _ _ H1) as (_ & Hp & _ & _ & Hfiles).
  split; [ exact Hp | ]. apply Hfiles. vm_compute. discriminate.
Defined.

Lemma check_cache_never_writes_witness :
  check_cache nfkd_ascii (memo_of square) stale_world
    = (Return tt, set_cache (VDict []) (set_timestamp (VInt 99) (memo_of square)),
       stale_world) /\
  stale_world = stale_world /\
  get_cache_filename nfkd_ascii
    (set_cache (VDict []) (set_timestamp (VInt 99) (memo_of square)))
    = get_cache_filename nfkd_ascii (memo_of square).
Proof.
  assert (H1 : check_cache nfkd_ascii (memo_of square) stale_world
               = (Return tt, set_cache (VDict []) (set_timestamp (VInt 99) (memo_of square)),
                  stale_world)) by (vm_compute; reflexivity).
  split; [ exact H1 | ].
  exact (check_cache_never_writes nfkd_ascii _ _ _ _ _ H1).
Defined.

Lemma save_then_read_witness :
  save_cache nfkd_ascii memo_16 (tick world0) = (Return tt, memo_16, world_16) /\
  read_fault (tick world0) = None /\
  same_binding memo_16 (memo_of square) /\
  exists t, getmtime (tick world0) (parent_filepath memo_16) = Some t /\
            read_cache nfkd_ascii (memo_of square) world_16
              = (Return tt, set_cache (cache memo_16) (set_timestamp (VInt t) (memo_of square)),
                 world_16).
Proof.
  assert (H1 : save_cache nfkd_ascii memo_16 (tick world0) = (Return tt, memo_16, world_16))
    by (vm_compute; reflexivity).
  assert (H2 : read_fault (tick world0) = None) by reflexivity.
  assert (H3 : same_binding memo_16 (memo_of square)) by (repeat split; reflexivity).
  repeat (split; [ assumption | ]).
  exact (save_then_read nfkd_ascii memo_16 (memo_of square) (tick world0) memo_16 world_16
           H1 H2 H3).
Defined.

Lemma cached_across_instances_witness :
  wrapped_f nfkd_ascii [VInt 4] (memo_of square) world0 = (Return (VInt 16), memo_16, world_16) /\
  calls world_16 = S (calls world0) /\
  read_fault world0 = None /\
  cache (memo_of square) = VNone /\
  same_binding (memo_of square) (memo_of square) /\
  exists s2, wrapped_f nfkd_ascii [VInt 4] (memo_of square) world_16
               = (Return (VInt 16), s2, world_16) /\ cache s2 = cache memo_16.
Proof.
  assert (H1 : wrapped_f nfkd_ascii [VInt 4] (memo_of square) world0
               = (Return (VInt 16), memo_16, world_16)) by (vm_compute; reflexivity).
  assert (H2 : calls world_16 = S (calls world0)) by reflexivity.
  assert (H3 : read_fault world0 = None) by reflexivity.
  assert (H4 : cache (memo_of square) = VNone) by reflexivity.
  assert (H5 : same_binding (memo_of square) (memo_of square)) by (repeat split; reflexivity).
  repeat (split; [ assumption | ]).
  exact (cached_across_instances nfkd_ascii [VInt 4] (memo_of square) (memo_of square)
           world0 (VInt 16) memo_16 world_16 H1 H2 H3 H4 H5).
Defined.

Lemma store_stays_in_sync_witness :
  wrapped_f nfkd_ascii [VInt 4] (memo_of square) world0 = (Return (VInt 16), memo_16, world_16) /\
  (cache (memo_of square) = VNone \/ in_sync nfkd_ascii (memo_of square) world0) /\
  in_sync nfkd_ascii memo_16 world_16.
Proof.
  assert (H1 : wrapped_f nfkd_ascii [VInt 4] (memo_of square) world0
               = (Return (VInt 16), memo_16, world_16)) by (vm_compute; reflexivity).
  assert (H2 : cache (memo_of square) = VNone \/ in_sync nfkd_ascii (memo_of square) world0)
    by (left; reflexivity).
  repeat (split; [ assumption | ]).
  exact (store_stays_in_sync nfkd_ascii [VInt 4] (memo_of square) world0 (VInt 16)
           memo_16 world_16 H1 H2).
Defined.

Lemma unvalidated_store_is_served_witness :
  cache (memo_of square) = VNone /\
  files orphan_world !! get_cache_filename nfkd_ascii (memo_of square)
    = Some (File (Pickled (store 100 entries_16))) /\
  read_fault orphan_world = None /\
  py_getitem (store 100 entries_16) (VStr (u "timestamp")) = Return (VInt 100) /\
  py_getitem (store 100 entries_16) (VStr (u "cache"))
    = Return (VDict [(VTuple [VInt 4], VInt 16)]) /\
  getmtime orphan_world (parent_filepath (memo_of square)) = None /\
  wrapped_f nfkd_ascii [VInt 4] (memo_of square) orphan_world
    = (Raise OSError, set_cache entries_16 (set_timestamp (VInt 100) (memo_of square)),
       orphan_world) /\
  wrapped_f nfkd_ascii [VInt 4]
    (set_cache entries_16 (set_timestamp (VInt 100) (memo_of square))) orphan_world
    = (Return (VInt 16), set_cache entries_16 (set_timestamp (VInt 100) (memo_of square)),
       orphan_world).
Proof.
  assert (H1 : cache (memo_of square) = VNone) by reflexivity.
  assert (H2 : files orphan_world !! get_cache_filename nfkd_ascii (memo_of square)
               = Some (File (Pickled (store 100 entries_16)))) by (vm_compute; reflexivity).
  assert (H3 : read_fault orphan_world = None) by reflexivity.
  assert (H4 : py_getitem (store 100 entries_16) (VStr (u "timestamp")) = Return (VInt 100))
    by (vm_compute; reflexivity).
  assert (H5 : py_getitem (store 100 entries_16) (VStr (u "cache"))
               = Return (VDict [(VTuple [VInt 4], VInt 16)])) by (vm_compute; reflexivity).
  assert (H6 : getmtime orphan_world (parent_filepath (memo_of square)) = None)
    by reflexivity.
  repeat (split; [ assumption | ]).
  destruct (unvalidated_store_is_served nfkd_ascii (memo_of square) orphan_world
              _ _ _ H1 H2 H3 H4 H5 H6) as [Hraise Hserve].
  split; [ exact (Hraise [VInt 4]) | ].
  exact (Hserve [VInt 4] (VInt 16) orphan_world eq_refl eq_refl).
Defined.

Lemma unsaved_entry_is_served_witness :
  cache memo_empty = VDict [] /\
  wrapped_f nfkd_ascii [VInt 4] memo_empty readonly_world
    = (Raise OSError, memo_16, tick readonly_world) /\
  calls (tick readonly_world) = S (calls readonly_world) /\
  fn_body (func memo_empty) [VInt 4] (calls readonly_world) = Return (VInt 16) /\
  wrapped_f nfkd_ascii [VInt 4] memo_16 readonly_world
    = (Return (VInt 16), memo_16, readonly_world).
Proof.
  assert (H1 : cache memo_empty = VDict []) by reflexivity.
  assert (H2 : wrapped_f nfkd_ascii [VInt 4] memo_empty readonly_world
               = (Raise OSError, memo_16, tick readonly_world)) by (vm_compute; reflexivity).
  assert (H3 : calls (tick readonly_world) = S (calls readonly_world)) by reflexivity.
  assert (H4 : fn_body (func memo_empty) [VInt 4] (calls readonly_world) = Return (VInt 16))
    by reflexivity.
  repeat (split; [ assumption | ]).
  exact (unsaved_entry_is_served nfkd_ascii [VInt 4] memo_empty readonly_world [] OSError
           memo_16 (tick readonly_world) (VInt 16) H1 H2 H3 H4 readonly_world).
Defined.

Lemma failed_save_wipes_the_file_witness :
  files orphan_world !! get_cache_filename nfkd_ascii memo_16 <> Some Dir /\
  open_fault orphan_world = None /\
  getmtime orphan_world (parent_filepath memo_16) = None /\
  exists w',
    save_cache nfkd_ascii memo_16 orphan_world = (Raise OSError, memo_16, w') /\
    files w' !! get_cache_filename nfkd_ascii memo_16 = Some (File empty_file).
Proof.
  assert (H1 : files orphan_world !! get_cache_filename nfkd_ascii memo_16 <> Some Dir)
    by (vm_compute; discriminate).
  assert (H2 : open_fault orphan_world = None) by reflexivity.
  assert (H3 : getmtime orphan_world (parent_filepath memo_16) = None) by reflexivity.
  repeat (split; [ assumption | ]).
  destruct (failed_save_wipes_the_file nfkd_ascii memo_16 orphan_world H1 H2 H3)
    as (w' & Hsave & Hfile & _).
  exists w'. split; assumption.
Defined.

Lemma unreadable_store_keeps_failing_witness :
  cache (memo_of square) = VNone /\
  files malformed_world !! get_cache_filename nfkd_ascii (memo_of square)
    = Some (File (Broken UnpicklingError)) /\
  read_cache nfkd_ascii (memo_of square) malformed_world
    = (Raise UnpicklingError, memo_of square, malformed_world) /\
  is_EOFError UnpicklingError = false /\
  wrapped_f nfkd_ascii [VInt 4] (memo_of square) malformed_world
    = (Raise UnpicklingError, memo_of square, malformed_world).
Proof.
  assert (H1 : cache (memo_of square) = VNone) by reflexivity.
  assert (H2 : files malformed_world !! get_cache_filename nfkd_ascii (memo_of square)
               = Some (File (Broken UnpicklingError))) by (vm_compute; reflexivity).
  assert (H3 : read_cache nfkd_ascii (memo_of square) malformed_world
               = (Raise UnpicklingError, memo_of square, malformed_world))
    by (vm_compute; reflexivity).
  assert (H4 : is_EOFError UnpicklingError = false) by reflexivity.
  repeat (split; [ assumption | ]).
  destruct (unreadable_store_keeps_failing nfkd_ascii (memo_of square) malformed_world
              _ _ _ _ H1 H2 H3 H4) as [_ Hfail].
  exact (proj1 (Hfail [VInt 4])).
Defined.

Lemma stale_file_is_replaced_witness :
  cache (memo_of square) = VNone /\
  files stale_world !! get_cache_filename nfkd_ascii (memo_of square)
    = Some (File (Pickled (store 99 (VDict [(VTuple [VInt 4], VInt 17)])))) /\
  read_fault stale_world = None /\
  py_getitem (store 99 (VDict [(VTuple [VInt 4], VInt 17)])) (VStr (u "timestamp"))
    = Return (VInt 99) /\
  py_getitem (store 99 (VDict [(VTuple [VInt 4], VInt 17)])) (VStr (u "cache"))
    = Return (VDict [(VTuple [VInt 4], VInt 17)]) /\
  getmtime stale_world (parent_filepath (memo_of square)) = Some 100%Z /\
  (99 < 100)%Z /\
  hashable (VTuple [VInt 5]) = true /\
  fn_body (func (memo_of square)) [VInt 5] (calls stale_world) = Return (VInt 25) /\
  open_fault stale_world = None /\
  write_fault stale_world = None /\
  exists s1 w1,
    wrapped_f nfkd_ascii [VInt 5] (memo_of square) stale_world = (Return (VInt 25), s1, w1) /\
    cache s1 = VDict [(VTuple [VInt 5], VInt 25)] /\
    files w1 !! get_cache_filename nfkd_ascii (memo_of square)
      = Some (File (Pickled (store 100 (VDict [(VTuple [VInt 5], VInt 25)])))).
Proof.
  assert (H1 : cache (memo_of square) = VNone) by reflexivity.
  assert (H2 : files stale_world !! get_cache_filename nfkd_ascii (memo_of square)
               = Some (File (Pickled (store 99 (VDict [(VTuple [VInt 4], VInt 17)])))))
    by (vm_compute; reflexivity).
  assert (H3 : read_fault stale_world = None) by reflexivity.
  assert (H4 : py_getitem (store 99 (VDict [(VTuple [VInt 4], VInt 17)]))
                 (VStr (u "timestamp")) = Return (VInt 99)) by (vm_compute; reflexivity).
  assert (H5 : py_getitem (store 99 (VDict [(VTuple [VInt 4], VInt 17)]))
                 (VStr (u "cache")) = Return (VDict [(VTuple [VInt 4], VInt 17)]))
    by (vm_compute; reflexivity).
  assert (H6 : getmtime stale_world (parent_filepath (memo_of square)) = Some 100%Z)
    by reflexivity.
  assert (H7 : (99 < 100)%Z) by lia.
  assert (H8 : hashable (VTuple [VInt 5]) = true) by reflexivity.
  assert (H9 : fn_body (func (memo_of square)) [VInt 5] (calls stale_world)
               = Return (VInt 25)) by reflexivity.
  assert (H10 : open_fault stale_world = None) by reflexivity.
  assert (H11 : write_fault stale_world = None) by reflexivity.
  repeat (split; [ assumption | ]).
  exact (stale_file_is_replaced nfkd_ascii [VInt 5] (memo_of square) stale_world
           _ _ (VInt 25) 99%Z 100%Z H1 H2 H3 H4 H5 H6 H7 H8 H9 H10 H11).
Defined.
